(** * chat-away: a shallow embedding of the chat client and its properties

    The development follows the layout of the Python sources:

    - [Py]                 the Python values and builtins the application uses
    - [Session]            app/utils/session.py
    - [WebsocketClient]    app/services/websocket_client.py
    - [SearchService]      app/services/search_service.py
    - [OpenaiService]      app/services/openai_service.py
    - [Sidebar]            app/components/sidebar.py
    - [ChatInterface]      app/components/chat_interface.py
    - [Reference]          a runtime, services and sessions for the examples

    The properties follow the modules, each under the number of the claim it
    settles.  Logging calls are not modelled, except for the expressions a log line
    evaluates when those can raise.

    Two threads run the code.  The page script runs the components, the
    services and the session functions; the thread of a socket runs the
    callbacks of [WebSocketClient] and, through them, the two handlers.
    What [st.session_state] is depends on the thread, see [caller]. *)

From Stdlib Require Import String Ascii List ZArith Bool Lia Floats.
From Stdlib Require Import DecimalString.
Import ListNotations.
Open Scope string_scope.
Set Warnings "-register-all".

(* ===================================================================== *)
(** ** Python values and builtins *)
(* ===================================================================== *)

Module Py.

(** What [json.loads] can return.  [JNull] is Python's [None]; a JSON object
    is a [dict], kept as an association list in insertion order. *)
Inductive json : Type :=
| JNull
| JBool (b : bool)
| JInt (z : Z)
| JFloat (f : float)
| JStr (s : string)
| JArr (items : list json)
| JObj (fields : list (string * json)).

Definition dict := list (string * json).

(** The exceptions the application meets, all of them instances of
    [Exception], which is what its [except] clauses catch.  [ExternalError]
    stands for any exception class of a library (requests, openai,
    websocket), with the text [str(e)] gives. *)
Inductive exn : Type :=
| JSONDecodeError
| TypeError
| KeyError (key : string)
| AttributeError
| IndexError
| ExternalError (cls message : string).

(** The outcome of evaluating an expression: a value or a raised exception. *)
Inductive res (A : Type) : Type :=
| Ok (a : A)
| Raise (e : exn).
Arguments Ok {A} a.
Arguments Raise {A} e.

Definition res_bind {A B} (r : res A) (k : A -> res B) : res B :=
  match r with
  | Ok a => k a
  | Raise e => Raise e
  end.

(** [bool(v)]: the truth value Python's [if v], [not v] and [v or d] use. *)
Definition truthy (v : json) : bool :=
  match v with
  | JNull => false
  | JBool b => b
  | JInt z => negb (z =? 0)%Z
  | JFloat f => negb (PrimFloat.eqb f 0%float)
  | JStr s => negb (s =? "")
  | JArr items => match items with [] => false | _ => true end
  | JObj fields => match fields with [] => false | _ => true end
  end.

(** [a or b] *)
Definition py_or (a b : json) : json := if truthy a then a else b.

(** [d.get(k)] and [k in d] on a dict. *)
Fixpoint dict_get (k : string) (d : dict) : option json :=
  match d with
  | [] => None
  | (k', v) :: rest => if k' =? k then Some v else dict_get k rest
  end.

Definition dict_has (k : string) (d : dict) : bool :=
  match dict_get k d with
  | Some _ => true
  | None => false
  end.

(** [d[k] = v]: replaces the value of an existing key in place, else appends. *)
Fixpoint dict_set (k : string) (v : json) (d : dict) : dict :=
  match d with
  | [] => [(k, v)]
  | (k', v') :: rest =>
      if k' =? k then (k, v) :: rest else (k', v') :: dict_set k v rest
  end.

(** [needle in haystack] on two [str]s: [needle] occurs as a substring. *)
Fixpoint starts_with (needle s : string) : bool :=
  match needle, s with
  | EmptyString, _ => true
  | String _ _, EmptyString => false
  | String a needle', String b s' => Ascii.eqb a b && starts_with needle' s'
  end.

Fixpoint str_contains (needle s : string) : bool :=
  starts_with needle s ||
  match s with
  | EmptyString => false
  | String _ s' => str_contains needle s'
  end.

(** [x == "..."] for a parsed JSON value [x] and a [str] literal. *)
Definition eq_str (v : json) (s : string) : bool :=
  match v with
  | JStr s' => s' =? s
  | _ => false
  end.

(** [key in data] for a [str] key and any parsed JSON value: membership in a
    dict's keys, in a list's elements, substring of a str; the other types
    are not containers. *)
Definition py_in (key : string) (data : json) : res bool :=
  match data with
  | JObj fields => Ok (dict_has key fields)
  | JArr items => Ok (existsb (fun v => eq_str v key) items)
  | JStr s => Ok (str_contains key s)
  | _ => Raise TypeError
  end.

(** [data[key]] for a [str] key. *)
Definition py_getitem (data : json) (key : string) : res json :=
  match data with
  | JObj fields =>
      match dict_get key fields with
      | Some v => Ok v
      | None => Raise (KeyError key)
      end
  | _ => Raise TypeError
  end.

(** [len(v)] *)
Definition py_len (v : json) : res nat :=
  match v with
  | JStr s => Ok (String.length s)
  | JArr items => Ok (List.length items)
  | JObj fields => Ok (List.length fields)
  | _ => Raise TypeError
  end.

Fixpoint chars (s : string) : list json :=
  match s with
  | EmptyString => []
  | String c s' => JStr (String c EmptyString) :: chars s'
  end.

(** The items a [for] loop over [v] visits: elements of a list, keys of a
    dict, characters of a str. *)
Definition py_iter (v : json) : res (list json) :=
  match v with
  | JArr items => Ok items
  | JObj fields => Ok (map (fun kv => JStr (fst kv)) fields)
  | JStr s => Ok (chars s)
  | _ => Raise TypeError
  end.

(** [data.keys()] and [data.get(key)]: only a dict has these attributes. *)
Definition py_keys (data : json) : res (list string) :=
  match data with
  | JObj fields => Ok (map fst fields)
  | _ => Raise AttributeError
  end.

Definition py_get (data : json) (key : string) : res json :=
  match data with
  | JObj fields =>
      match dict_get key fields with
      | Some v => Ok v
      | None => Ok JNull
      end
  | _ => Raise AttributeError
  end.

(** [v[:n]]: a str or a list can be sliced. *)
Definition py_slice (v : json) : res unit :=
  match v with
  | JStr _ | JArr _ => Ok tt
  | _ => Raise TypeError
  end.

(** Decimal digits of a natural number, as [str(n)] prints it. *)
Definition str_of_nat (n : nat) : string :=
  NilZero.string_of_uint (Nat.to_uint n).

(** The argument the application passes to its error callback: a [str] or
    the exception object itself. *)
Inductive error_value : Type :=
| ErrText (s : string)
| ErrExn (e : exn).

(** The parts of the Python runtime that are taken as given: the JSON
    parser, Unicode case mapping and whitespace stripping, and the text
    [str()] produces for exceptions and for JSON values other than [str]. *)
Class Runtime : Type := {
  json_loads : string -> res json;
  str_lower : string -> string;
  str_strip : string -> string;
  repr_value : json -> string;
  str_exn : exn -> string
}.

(** [str(v)], as an f-string formats a parsed JSON value. *)
Definition py_str `{Runtime} (v : json) : string :=
  match v with
  | JStr s => s
  | _ => repr_value v
  end.

Definition str_error `{Runtime} (e : error_value) : string :=
  match e with
  | ErrText s => s
  | ErrExn x => str_exn x
  end.

End Py.
Import Py.

(* ===================================================================== *)
(** ** The state the application runs in *)
(* ===================================================================== *)

(** [load_config]'s dictionary, app/utils/config.py. *)
Record Config : Type := {
  openai_api_key : string;
  openai_default_model : string;
  aws_api_endpoint : string;
  aws_websocket_url : string;
  aws_api_key : string;
  app_debug : bool
}.

(** [st.session_state] once [main] has stored the configuration and run
    [initialize_session_state].  [conversation_id] is [JNull] for [None], and
    holds whatever JSON value the search backend answered otherwise.
    The two optional keys are only probed ([websocket_client] by [in],
    [_timestamp] by [get]). *)
Record SessionState : Type := {
  messages : list dict;
  conversation_id : json;
  websocket_connected : bool;
  search_results : json;
  openai_model : string;
  config : Config;
  websocket_client : option nat;
  _timestamp : option json
}.

(** A [WebSocketClient] object.  [ws] and [thread] name the socket
    ([websocket.WebSocketApp]) the object created last and the thread running
    it; the callbacks are fixed where the object is built. *)
Record WebSocketClient : Type := {
  websocket_url : string;
  ws : option nat;
  thread : option nat;
  is_connected : bool
}.

(** A socket a client opened, with the thread that runs its receive loop.
    [socket_closed] says whether the application has called [close] on
    it. *)
Record Socket : Type := {
  socket_url : string;
  socket_owner : nat;
  socket_closed : bool
}.

(** What the user sees (Streamlit calls) and what goes out over HTTP.
    [St_rerun] records a call of [st.rerun()]; wherever the application
    calls it, it is the last statement of the function, and what Streamlit
    does to the control flow of the running script is left out. *)
Inductive event : Type :=
| St_error (text : string)
| St_sidebar_warning (text : string)
| St_sidebar_success (text : string)
| St_sidebar_error (text : string)
| St_info (text : string)
| St_chat_message (role text : string)
| St_rerun
| Requests_post (url : string) (headers : list (string * string)) (payload : dict).

(** What the world outside answers. *)
Record Response : Type := {
  status_code : Z;
  response_json : res json
}.

Record ChatCompletion : Type := {
  choices : list (option string)
}.

(** The services the application calls: [requests.post] on the search
    endpoint, the OpenAI client and its [chat.completions.create], and the
    creation of a [WebSocketApp] with the thread that runs it. *)
Class Env : Type := {
  requests_post : string -> list (string * string) -> dict -> res Response;
  openai_client : string -> res unit;
  chat_completions_create : string -> list dict -> res ChatCompletion;
  websocket_app : string -> res unit
}.

Record World : Type := {
  session_state : SessionState;
  clients : list WebSocketClient;
  sockets : list Socket;
  events : list event
}.

(** *** Record updates *)

Definition with_session (f : SessionState -> SessionState) (w : World) : World :=
  {| session_state := f (session_state w);
     clients := clients w;
     sockets := sockets w;
     events := events w |}.

Definition emit (e : event) (w : World) : World :=
  {| session_state := session_state w;
     clients := clients w;
     sockets := sockets w;
     events := events w ++ [e] |}.

Definition set_messages (ms : list dict) (s : SessionState) : SessionState :=
  {| messages := ms;
     conversation_id := conversation_id s;
     websocket_connected := websocket_connected s;
     search_results := search_results s;
     openai_model := openai_model s;
     config := config s;
     websocket_client := websocket_client s;
     _timestamp := _timestamp s |}.

Definition set_conversation_id (v : json) (s : SessionState) : SessionState :=
  {| messages := messages s;
     conversation_id := v;
     websocket_connected := websocket_connected s;
     search_results := search_results s;
     openai_model := openai_model s;
     config := config s;
     websocket_client := websocket_client s;
     _timestamp := _timestamp s |}.

Definition set_websocket_connected (b : bool) (s : SessionState) : SessionState :=
  {| messages := messages s;
     conversation_id := conversation_id s;
     websocket_connected := b;
     search_results := search_results s;
     openai_model := openai_model s;
     config := config s;
     websocket_client := websocket_client s;
     _timestamp := _timestamp s |}.

Definition set_search_results (v : json) (s : SessionState) : SessionState :=
  {| messages := messages s;
     conversation_id := conversation_id s;
     websocket_connected := websocket_connected s;
     search_results := v;
     openai_model := openai_model s;
     config := config s;
     websocket_client := websocket_client s;
     _timestamp := _timestamp s |}.

Definition set_openai_model (m : string) (s : SessionState) : SessionState :=
  {| messages := messages s;
     conversation_id := conversation_id s;
     websocket_connected := websocket_connected s;
     search_results := search_results s;
     openai_model := m;
     config := config s;
     websocket_client := websocket_client s;
     _timestamp := _timestamp s |}.

Definition set_websocket_client (c : option nat) (s : SessionState) : SessionState :=
  {| messages := messages s;
     conversation_id := conversation_id s;
     websocket_connected := websocket_connected s;
     search_results := search_results s;
     openai_model := openai_model s;
     config := config s;
     websocket_client := c;
     _timestamp := _timestamp s |}.

(** *** Statements that change the state and may raise *)

Definition M (A : Type) : Type := World -> res A * World.

Definition ret {A} (a : A) : M A := fun w => (Ok a, w).

Definition bind {A B} (m : M A) (k : A -> M B) : M B :=
  fun w =>
    match m w with
    | (Ok a, w') => k a w'
    | (Raise e, w') => (Raise e, w')
    end.

Definition raise {A} (e : exn) : M A := fun w => (Raise e, w).

(** A value that is computed without touching the state. *)
Definition eval {A} (r : res A) : M A := fun w => (r, w).

Definition get_session : M SessionState := fun w => (Ok (session_state w), w).

Definition update_session (f : SessionState -> SessionState) : M unit :=
  fun w => (Ok tt, with_session f w).

Definition show (e : event) : M unit := fun w => (Ok tt, emit e w).

(** [try: body except Exception as e: handler(e)].  What [body] did to the
    state before it raised stays done. *)
Definition try_except {A} (body : M A) (handler : exn -> M A) : M A :=
  fun w =>
    match body w with
    | (Ok a, w') => (Ok a, w')
    | (Raise e, w') => handler e w'
    end.

Declare Scope py_scope.
Delimit Scope py_scope with py.
Notation "x <- m ;; k" := (bind m (fun x => k))
  (at level 61, m at next level, right associativity) : py_scope.
Notation "m ;;; k" := (bind m (fun _ => k))
  (at level 61, right associativity) : py_scope.
Open Scope py_scope.

Definition result {A} (m : M A) (w : World) : res A := fst (m w).
Definition after {A} (m : M A) (w : World) : World := snd (m w).

(** *** The thread a statement runs on

    Streamlit finds the session and the page of a user through the script
    run context of the running thread.  The page script has one.  The
    thread that [WebSocketClient.connect] starts for [run_forever] has none,
    and the callbacks of the socket run on it: there [st.session_state] is
    an empty store of its own at every use, so that a key that is read is
    missing, what is written is lost, and what is shown reaches no page. *)
Inductive caller : Type :=
| ScriptThread
| SocketThread.

(** [st.session_state.key], read *)
Definition session_read {A} (t : caller) (key : SessionState -> A) : M A :=
  match t with
  | ScriptThread => s <- get_session ;; ret (key s)
  | SocketThread => raise AttributeError
  end.

(** [st.session_state.get(key, default)] *)
Definition session_get {A} (t : caller) (key : SessionState -> option A)
    (default : A) : M A :=
  match t with
  | ScriptThread =>
      s <- get_session ;;
      ret (match key s with Some v => v | None => default end)
  | SocketThread => ret default
  end.

(** [st.session_state.key = value] *)
Definition session_write (t : caller) (f : SessionState -> SessionState) : M unit :=
  match t with
  | ScriptThread => update_session f
  | SocketThread => ret tt
  end.

(** [st.error(...)], [st.rerun()]: a call of Streamlit that shows or asks
    for something. *)
Definition st_call (t : caller) (e : event) : M unit :=
  match t with
  | ScriptThread => show e
  | SocketThread => ret tt
  end.

(* ===================================================================== *)
(** ** app/utils/session.py *)
(* ===================================================================== *)

Module Session.

(** The values [initialize_session_state] gives the keys of a new session. *)
Definition initial_session (cfg : Config) : SessionState :=
  {| messages := [];
     conversation_id := JNull;
     websocket_connected := false;
     search_results := JArr [];
     openai_model := "gpt-4";
     config := cfg;
     websocket_client := None;
     _timestamp := None |}.

(** The dict [add_message] builds before it appends it; [if search_query:]
    holds for a [str] that is not empty. *)
Definition new_message (s : SessionState) (role content : string)
    (search_query : option string) : dict :=
  let message :=
    [ ("role", JStr role);
      ("content", JStr content);
      ("timestamp", match _timestamp s with Some t => t | None => JInt 0 end) ] in
  match search_query with
  | Some q => if truthy (JStr q) then dict_set "search_query" (JStr q) message else message
  | None => message
  end.

Definition add_message (role content : string) (search_query : option string) : M unit :=
  s <- get_session ;;
  update_session (set_messages (messages s ++ [new_message s role content search_query])).

(** [add_message], statement by statement, on thread [t].  The dict is
    built first, its timestamp taken with
    [st.session_state.get("_timestamp", 0)]; [st.session_state.messages] is
    read last, for the append.  On the script thread this is [add_message]
    above; the message handler of the socket calls it on the socket's
    thread. *)
Definition add_message_on (t : caller) (role content : string)
    (search_query : option string) : M unit :=
  timestamp <- session_get t _timestamp (JInt 0) ;;
  let message :=
    [ ("role", JStr role);
      ("content", JStr content);
      ("timestamp", timestamp) ] in
  let message :=
    match search_query with
    | Some q => if truthy (JStr q) then dict_set "search_query" (JStr q) message else message
    | None => message
    end in
  transcript <- session_read t messages ;;
  session_write t (set_messages (transcript ++ [message])).

(** [{"role": msg["role"], "content": msg["content"]} for msg in messages] *)
Fixpoint role_and_content (ms : list dict) : res (list dict) :=
  match ms with
  | [] => Ok []
  | msg :: rest =>
      res_bind (py_getitem (JObj msg) "role") (fun r =>
      res_bind (py_getitem (JObj msg) "content") (fun c =>
      res_bind (role_and_content rest) (fun out =>
      Ok ([("role", r); ("content", c)] :: out))))
  end.

Definition get_messages_for_openai : M (list dict) :=
  s <- get_session ;;
  eval (role_and_content (messages s)).

Definition clear_conversation : M unit :=
  update_session (set_messages []) ;;;
  update_session (set_conversation_id JNull) ;;;
  update_session (set_search_results (JArr [])).

(** *** The session before it is initialised

    [initialize_session_state] runs at every run of the page script; each of
    its five keys may be there already, or not yet. *)
Record SessionKeys : Type := {
  key_messages : option (list dict);
  key_conversation_id : option json;
  key_websocket_connected : option bool;
  key_search_results : option json;
  key_openai_model : option string
}.

(** [if key not in st.session_state: st.session_state.key = default] *)
Definition setdefault {A} (current : option A) (default : A) : option A :=
  match current with
  | Some v => Some v
  | None => Some default
  end.

Definition initialize_session_state (k : SessionKeys) : SessionKeys :=
  {| key_messages := setdefault (key_messages k) [];
     key_conversation_id := setdefault (key_conversation_id k) JNull;
     key_websocket_connected := setdefault (key_websocket_connected k) false;
     key_search_results := setdefault (key_search_results k) (JArr []);
     key_openai_model := setdefault (key_openai_model k) "gpt-4" |}.

(** The session the rest of the application works on, when the five keys
    are there. *)
Definition session_of (k : SessionKeys) (cfg : Config) (client : option nat)
    (timestamp : option json) : option SessionState :=
  match key_messages k, key_conversation_id k, key_websocket_connected k,
        key_search_results k, key_openai_model k with
  | Some ms, Some id, Some connected, Some results, Some model =>
      Some {| messages := ms;
              conversation_id := id;
              websocket_connected := connected;
              search_results := results;
              openai_model := model;
              config := cfg;
              websocket_client := client;
              _timestamp := timestamp |}
  | _, _, _, _, _ => None
  end.

Definition no_keys : SessionKeys :=
  {| key_messages := None;
     key_conversation_id := None;
     key_websocket_connected := None;
     key_search_results := None;
     key_openai_model := None |}.

End Session.

(* ===================================================================== *)
(** ** app/services/websocket_client.py *)
(* ===================================================================== *)

Module WebsocketClient.

Definition nl : string := String "010"%char EmptyString.

(** *** The heap of client objects *)

Fixpoint update_nth {A} (n : nat) (f : A -> A) (l : list A) : list A :=
  match l, n with
  | [], _ => []
  | x :: rest, O => f x :: rest
  | x :: rest, S n' => x :: update_nth n' f rest
  end.

Definition update_client (self : nat) (f : WebSocketClient -> WebSocketClient) : M unit :=
  fun w =>
    (Ok tt,
     {| session_state := session_state w;
        clients := update_nth self f (clients w);
        sockets := sockets w;
        events := events w |}).

Definition set_is_connected (b : bool) (c : WebSocketClient) : WebSocketClient :=
  {| websocket_url := websocket_url c;
     ws := ws c;
     thread := thread c;
     is_connected := b |}.

Definition set_ws (i : nat) (c : WebSocketClient) : WebSocketClient :=
  {| websocket_url := websocket_url c;
     ws := Some i;
     thread := thread c;
     is_connected := is_connected c |}.

Definition set_thread (i : nat) (c : WebSocketClient) : WebSocketClient :=
  {| websocket_url := websocket_url c;
     ws := ws c;
     thread := Some i;
     is_connected := is_connected c |}.

(** [WebSocketClient(websocket_url, on_message, on_error)]: a new object,
    named by its place in the heap. *)
Definition new_client (url : string) : M nat :=
  fun w =>
    (Ok (List.length (clients w)),
     {| session_state := session_state w;
        clients := clients w ++
          [{| websocket_url := url; ws := None; thread := None; is_connected := false |}];
        sockets := sockets w;
        events := events w |}).

(** A new socket for [self]; its number is returned. *)
Definition open_socket (self : nat) (url : string) : M nat :=
  fun w =>
    (Ok (List.length (sockets w)),
     {| session_state := session_state w;
        clients := clients w;
        sockets := sockets w ++
          [{| socket_url := url; socket_owner := self; socket_closed := false |}];
        events := events w |}).

Definition close_socket (i : nat) : M unit :=
  fun w =>
    (Ok tt,
     {| session_state := session_state w;
        clients := clients w;
        sockets := update_nth i (fun s =>
          {| socket_url := socket_url s;
             socket_owner := socket_owner s;
             socket_closed := true |}) (sockets w);
        events := events w |}).

Definition client_ws (self : nat) (w : World) : option nat :=
  match nth_error (clients w) self with
  | Some c => ws c
  | None => None
  end.

Definition client_url (self : nat) (w : World) : string :=
  match nth_error (clients w) self with
  | Some c => websocket_url c
  | None => ""
  end.

(** *** class WebSocketClient

    [connect] and [disconnect] are called by the page script.  The four
    callbacks [_on_message], [_on_error], [_on_close] and [_on_open] are
    handed to the [WebSocketApp] and called by the thread that [connect]
    starts for it. *)

Section Methods.
Context `{Runtime} `{Env}.

(** The two callbacks given to [__init__], as they run on the thread of the
    caller, and the object. *)
Variable on_message : json -> M unit.
Variable on_error : error_value -> M unit.
Variable self : nat.

Definition connect : M unit :=
  try_except
    (url <- (fun w => (Ok (client_url self w), w)) ;;
     eval (websocket_app url) ;;;
     i <- open_socket self url ;;
     update_client self (set_ws i) ;;;
     update_client self (set_thread i))
    (fun e => on_error (ErrExn e)).

Definition disconnect : M unit :=
  cur <- (fun w => (Ok (client_ws self w), w)) ;;
  match cur with
  | Some i =>
      close_socket i ;;;
      update_client self (set_is_connected false)
  | None => ret tt
  end.

Definition _on_message (message : string) : M unit :=
  try_except
    (data <- eval (json_loads message) ;;
     on_message data)
    (fun e =>
       match e with
       | JSONDecodeError => on_error (ErrText "Invalid message format")
       | _ => on_error (ErrText (str_exn e))
       end).

Definition _on_error (error : exn) : M unit :=
  update_client self (set_is_connected false) ;;;
  on_error (ErrExn error).

Definition _on_close : M unit :=
  update_client self (set_is_connected false).

Definition _on_open : M unit :=
  update_client self (set_is_connected true) ;;;
  session_write SocketThread (set_websocket_connected true).

End Methods.

(** *** The handlers the application registers *)

(** The loop [for idx, result in enumerate(results, 1)] that extends
    [result_text] by one line per result. *)
Fixpoint format_results `{Runtime} (idx : nat) (results : list json)
    (result_text : string) : res string :=
  match results with
  | [] => Ok result_text
  | result :: rest =>
      res_bind (py_getitem result "title") (fun title =>
      res_bind (py_getitem result "snippet") (fun snippet =>
      format_results (S idx) rest
        (result_text ++ str_of_nat idx ++ ". " ++ py_str title ++ ": "
           ++ py_str snippet ++ nl)))
  end.

(** The handler given as [on_message].  Only [_on_message] calls it, so it
    runs on the socket's thread. *)
Definition handle_websocket_message `{Runtime} (data : json) : M unit :=
  try_except
    (found <- eval (py_in "search_results" data) ;;
     if (found : bool) then
       results <- eval (py_getitem data "search_results") ;;
       eval (py_len results) ;;;
       session_write SocketThread (set_search_results results) ;;;
       (if truthy results then
          items <- eval (py_iter results) ;;
          result_text <- eval (format_results 1 items
                                 ("Here are the search results:" ++ nl ++ nl)) ;;
          Session.add_message_on SocketThread "assistant" result_text None
        else
          Session.add_message_on SocketThread "assistant" "No search results found." None) ;;;
       st_call SocketThread St_rerun
     else
       eval (py_keys data) ;;; ret tt)
    (fun _ => ret tt).

(** The handler given as [on_error], as the page script runs it: [connect]
    calls it when the socket cannot be created. *)
Definition handle_websocket_error `{Runtime} (error : error_value) : M unit :=
  update_session (set_websocket_connected false) ;;;
  show (St_error ("WebSocket error: " ++ str_error error)).

(** The same handler, statement by statement, on thread [t]: the socket's
    thread calls it from [_on_message] and from [_on_error]. *)
Definition handle_websocket_error_on `{Runtime} (t : caller) (error : error_value) : M unit :=
  session_write t (set_websocket_connected false) ;;;
  st_call t (St_error ("WebSocket error: " ++ str_error error)).

End WebsocketClient.

(* ===================================================================== *)
(** ** app/services/search_service.py *)
(* ===================================================================== *)

Module SearchService.

Record SearchService : Type := {
  api_endpoint : string;
  api_key : option string;
  headers : list (string * string)
}.

(** [SearchService(api_endpoint, api_key)] *)
Definition init (endpoint : string) (key : option string) : SearchService :=
  {| api_endpoint := endpoint;
     api_key := key;
     headers :=
       match key with
       | Some k => if truthy (JStr k) then [("x-api-key", k)] else []
       | None => []
       end |}.

(** The request body: [{"query": query, "conversation_id": id or "new_conversation"}]. *)
Definition payload_of (s : SessionState) (query : string) : dict :=
  [ ("query", JStr query);
    ("conversation_id", py_or (conversation_id s) (JStr "new_conversation")) ].

(** The inner [try]: adopt the id the response carries, if it carries one. *)
Definition adopt_conversation_id (response : Response) : M unit :=
  try_except
    (response_data <- eval (response_json response) ;;
     new_conversation_id <- eval (py_get response_data "conversation_id") ;;
     if truthy new_conversation_id
     then update_session (set_conversation_id new_conversation_id)
     else ret tt)
    (fun _ => ret tt).

Definition perform_search `{Env} (self : SearchService) (query : string) : M bool :=
  try_except
    (s <- get_session ;;
     let payload := payload_of s query in
     show (Requests_post (api_endpoint self) (headers self) payload) ;;;
     response <- eval (requests_post (api_endpoint self) (headers self) payload) ;;
     if (status_code response =? 202)%Z then
       s' <- get_session ;;
       (if negb (truthy (conversation_id s'))
        then adopt_conversation_id response
        else ret tt) ;;;
       ret true
     else ret false)
    (fun _ => ret false).

End SearchService.

(* ===================================================================== *)
(** ** app/services/openai_service.py *)
(* ===================================================================== *)

Module OpenaiService.

Definition search_keywords : list string :=
  [ "search"; "find"; "look up"; "lookup"; "search for";
    "find information"; "get information"; "retrieve" ].

(** [any(keyword in user_input.lower() for keyword in search_keywords)] *)
Definition should_use_semantic_search `{Runtime} (user_input : string) : bool :=
  existsb (fun keyword => str_contains keyword (str_lower user_input)) search_keywords.

(** [OpenAIService.generate_response]: the [except] clause logs and re-raises. *)
Definition generate_response `{Runtime} `{Env} (msgs : list dict) (model : string)
  : M string :=
  try_except
    (response <- eval (chat_completions_create model msgs) ;;
     match choices response with
     | [] => raise IndexError
     | None :: _ => raise AttributeError
     | Some content :: _ => ret (str_strip content)
     end)
    (fun e => raise e).

Definition process_user_input `{Runtime} `{Env} (user_input : string)
    (search_service : SearchService.SearchService) : M string :=
  Session.add_message "user" user_input None ;;;
  if should_use_semantic_search user_input then
    SearchService.perform_search search_service user_input ;;;
    ret "Searching for relevant information..."
  else
    try_except
      (msgs <- Session.get_messages_for_openai ;;
       s <- get_session ;;
       eval (openai_client (openai_api_key (config s))) ;;;
       s' <- get_session ;;
       response <- generate_response msgs (openai_model s') ;;
       Session.add_message "assistant" response None ;;;
       ret response)
      (fun e => ret ("Error: " ++ str_exn e)).

End OpenaiService.

(* ===================================================================== *)
(** ** app/components/sidebar.py *)
(* ===================================================================== *)

Module Sidebar.

Definition connect_websocket `{Runtime} `{Env} : M unit :=
  s <- get_session ;;
  if websocket_connected s then
    show (St_sidebar_warning "WebSocket already connected")
  else
    try_except
      (s' <- get_session ;;
       client <- WebsocketClient.new_client (aws_websocket_url (config s')) ;;
       WebsocketClient.connect WebsocketClient.handle_websocket_error client ;;;
       update_session (set_websocket_client (Some client)) ;;;
       show (St_sidebar_success "WebSocket connection initiated"))
      (fun e => show (St_sidebar_error ("Failed to connect to WebSocket: " ++ str_exn e))).

Definition disconnect_websocket `{Runtime} : M unit :=
  s <- get_session ;;
  if negb (websocket_connected s) then
    show (St_sidebar_warning "WebSocket not connected")
  else
    try_except
      (s' <- get_session ;;
       match websocket_client s' with
       | Some client =>
           WebsocketClient.disconnect client ;;;
           update_session (set_websocket_connected false) ;;;
           show (St_sidebar_success "WebSocket disconnected")
       | None => show (St_sidebar_warning "No active WebSocket connection found")
       end)
      (fun e => show (St_sidebar_error ("Error disconnecting WebSocket: " ++ str_exn e))).

(** What the thread of a socket does with an inbound frame and with a
    transport error, the client having been built by [connect_websocket]
    with the two handlers: they run on that thread. *)
Definition on_frame `{Runtime} (frame : string) : M unit :=
  WebsocketClient._on_message
    WebsocketClient.handle_websocket_message
    (WebsocketClient.handle_websocket_error_on SocketThread) frame.

Definition on_transport_error `{Runtime} (client : nat) (error : exn) : M unit :=
  WebsocketClient._on_error
    (WebsocketClient.handle_websocket_error_on SocketThread) client error.

End Sidebar.

(* ===================================================================== *)
(** ** app/components/chat_interface.py *)
(* ===================================================================== *)

Module ChatInterface.

(** The loop of [display_chat_messages].  Its log line slices the content
    ([content[:30]]) before the role is looked at. *)
Fixpoint display_each `{Runtime} (ms : list dict) : M unit :=
  match ms with
  | [] => ret tt
  | message :: rest =>
      role <- eval (py_getitem (JObj message) "role") ;;
      content <- eval (py_getitem (JObj message) "content") ;;
      eval (py_slice content) ;;;
      (if eq_str role "user" then show (St_chat_message "user" (py_str content))
       else if eq_str role "assistant" then show (St_chat_message "assistant" (py_str content))
       else if eq_str role "system"
            then show (St_chat_message "assistant" ("System: " ++ py_str content))
       else ret tt) ;;;
      display_each rest
  end.

Definition display_chat_messages `{Runtime} : M unit :=
  s <- get_session ;;
  match messages s with
  | [] => show (St_info "Send a message to start the conversation!")
  | ms => display_each ms
  end.

(** One run of the page script; [user_input] is what [st.chat_input] returns. *)
Definition render_chat_interface `{Runtime} `{Env} (user_input : option string) : M unit :=
  s <- get_session ;;
  let search_service :=
    SearchService.init (aws_api_endpoint (config s)) (Some (aws_api_key (config s))) in
  display_chat_messages ;;;
  match user_input with
  | Some text =>
      if truthy (JStr text) then
        OpenaiService.process_user_input text search_service ;;;
        show St_rerun
      else ret tt
  | None => ret tt
  end.

End ChatInterface.

(* ===================================================================== *)
(** ** A runtime and an environment to run examples with *)
(* ===================================================================== *)

Module Reference.

Definition dq : string := String "034"%char EmptyString.

(** [s] between double quotes. *)
Definition quoted (s : string) : string := dq ++ s ++ dq.

Definition lower_ascii (c : ascii) : ascii :=
  let n := nat_of_ascii c in
  if (65 <=? n)%nat && (n <=? 90)%nat then ascii_of_nat (n + 32) else c.

Fixpoint lower (s : string) : string :=
  match s with
  | EmptyString => EmptyString
  | String c s' => String (lower_ascii c) (lower s')
  end.

Definition is_space (c : ascii) : bool :=
  let n := nat_of_ascii c in
  (n =? 32)%nat || (n =? 9)%nat || (n =? 10)%nat || (n =? 13)%nat.

Fixpoint skip_ws (s : string) : string :=
  match s with
  | String c s' => if is_space c then skip_ws s' else s
  | EmptyString => s
  end.

Fixpoint rev_string (s acc : string) : string :=
  match s with
  | EmptyString => acc
  | String c s' => rev_string s' (String c acc)
  end.

Definition strip (s : string) : string :=
  rev_string (skip_ws (rev_string (skip_ws s) "")) "".

(** *** A parser for the JSON the examples use

    Objects, arrays, strings with the one-letter escapes, integers and the
    three literals, with blanks between tokens, read as [json.loads] reads
    them (the last of two equal keys wins).  Numbers with a fraction or an
    exponent and [\u] escapes are outside of it. *)

Definition digit_of (c : ascii) : option Z :=
  let n := nat_of_ascii c in
  if (48 <=? n)%nat && (n <=? 57)%nat then Some (Z.of_nat (n - 48)) else None.

Fixpoint read_digits (s : string) (acc : Z) : Z * string :=
  match s with
  | String c s' =>
      match digit_of c with
      | Some d => read_digits s' (10 * acc + d)%Z
      | None => (acc, s)
      end
  | EmptyString => (acc, s)
  end.

(** An integer, with no sign: one digit, or more that do not start with 0. *)
Definition read_nat (s : string) : option (Z * string) :=
  match s with
  | String c s' =>
      match digit_of c with
      | Some d =>
          match s' with
          | String c' _ =>
              match digit_of c' with
              | Some _ => if (d =? 0)%Z then None else Some (read_digits s' d)
              | None => Some (d, s')
              end
          | EmptyString => Some (d, s')
          end
      | None => None
      end
  | EmptyString => None
  end.

Definition no_fraction (rest : string) : bool :=
  match rest with
  | String c _ =>
      negb (Ascii.eqb c "."%char || Ascii.eqb c "e"%char || Ascii.eqb c "E"%char)
  | EmptyString => true
  end.

Definition unescape (c : ascii) : option ascii :=
  if Ascii.eqb c "034"%char then Some "034"%char
  else if Ascii.eqb c "\"%char then Some "\"%char
  else if Ascii.eqb c "/"%char then Some "/"%char
  else if Ascii.eqb c "n"%char then Some "010"%char
  else if Ascii.eqb c "t"%char then Some "009"%char
  else if Ascii.eqb c "r"%char then Some "013"%char
  else if Ascii.eqb c "b"%char then Some "008"%char
  else if Ascii.eqb c "f"%char then Some "012"%char
  else None.

(** The text of a string after its opening quote, and what follows the
    closing one. *)
Fixpoint read_string (s : string) : option (string * string) :=
  match s with
  | EmptyString => None
  | String c s' =>
      if Ascii.eqb c "034"%char then Some (EmptyString, s')
      else if Ascii.eqb c "\"%char then
        match s' with
        | String e s'' =>
            match unescape e, read_string s'' with
            | Some c', Some (text, rest) => Some (String c' text, rest)
            | _, _ => None
            end
        | EmptyString => None
        end
      else if (nat_of_ascii c <? 32)%nat then None
      else
        match read_string s' with
        | Some (text, rest) => Some (String c text, rest)
        | None => None
        end
  end.

Definition after_literal (lit : string) (v : json) (s : string) : option (json * string) :=
  if starts_with lit s
  then Some (v, String.substring (String.length lit) (String.length s) s)
  else None.

Fixpoint read_value (fuel : nat) (s : string) : option (json * string) :=
  match fuel with
  | O => None
  | S fuel' =>
      match skip_ws s with
      | EmptyString => None
      | String c rest =>
          if Ascii.eqb c "034"%char then
            match read_string rest with
            | Some (text, rest') => Some (JStr text, rest')
            | None => None
            end
          else if Ascii.eqb c "["%char then
            match skip_ws rest with
            | String "]"%char rest' => Some (JArr [], rest')
            | _ =>
                match read_items fuel' rest with
                | Some (items, rest') => Some (JArr items, rest')
                | None => None
                end
            end
          else if Ascii.eqb c "{"%char then
            match skip_ws rest with
            | String "}"%char rest' => Some (JObj [], rest')
            | _ =>
                match read_members fuel' rest [] with
                | Some (fields, rest') => Some (JObj fields, rest')
                | None => None
                end
            end
          else if Ascii.eqb c "-"%char then
            match read_nat rest with
            | Some (z, rest') => if no_fraction rest' then Some (JInt (- z), rest') else None
            | None => None
            end
          else if Ascii.eqb c "n"%char then after_literal "null" JNull (String c rest)
          else if Ascii.eqb c "t"%char then after_literal "true" (JBool true) (String c rest)
          else if Ascii.eqb c "f"%char then after_literal "false" (JBool false) (String c rest)
          else
            match read_nat (String c rest) with
            | Some (z, rest') => if no_fraction rest' then Some (JInt z, rest') else None
            | None => None
            end
      end
  end
with read_items (fuel : nat) (s : string) : option (list json * string) :=
  match fuel with
  | O => None
  | S fuel' =>
      match read_value fuel' s with
      | Some (v, rest) =>
          match skip_ws rest with
          | String "]"%char rest' => Some ([v], rest')
          | String ","%char rest' =>
              match read_items fuel' rest' with
              | Some (vs, rest'') => Some (v :: vs, rest'')
              | None => None
              end
          | _ => None
          end
      | None => None
      end
  end
with read_members (fuel : nat) (s : string) (acc : dict) : option (dict * string) :=
  match fuel with
  | O => None
  | S fuel' =>
      match skip_ws s with
      | String "034"%char rest =>
          match read_string rest with
          | Some (key, rest') =>
              match skip_ws rest' with
              | String ":"%char rest'' =>
                  match read_value fuel' rest'' with
                  | Some (v, rest3) =>
                      match skip_ws rest3 with
                      | String "}"%char rest4 => Some (dict_set key v acc, rest4)
                      | String ","%char rest4 => read_members fuel' rest4 (dict_set key v acc)
                      | _ => None
                      end
                  | None => None
                  end
              | _ => None
              end
          | None => None
          end
      | _ => None
      end
  end.

Definition loads (s : string) : res json :=
  match read_value (S (String.length s)) s with
  | Some (v, rest) =>
      match skip_ws rest with
      | EmptyString => Ok v
      | _ => Raise JSONDecodeError
      end
  | None => Raise JSONDecodeError
  end.

(** [str()] of the values and exceptions the examples print; the others
    are not printed there and come out as an ellipsis. *)
Definition repr (v : json) : string :=
  match v with
  | JNull => "None"
  | JBool true => "True"
  | JBool false => "False"
  | JInt z => if (z <? 0)%Z then "-" ++ str_of_nat (Z.abs_nat z) else str_of_nat (Z.abs_nat z)
  | _ => "..."
  end.

Definition exn_text (e : exn) : string :=
  match e with
  | ExternalError _ message => message
  | IndexError => "list index out of range"
  | KeyError key => "'" ++ key ++ "'"
  | _ => "..."
  end.

(** ASCII text, the JSON above, and the messages of the exceptions the
    examples raise. *)
Definition runtime : Runtime :=
  {| json_loads := loads;
     str_lower := lower;
     str_strip := strip;
     repr_value := repr;
     str_exn := exn_text |}.

Definition a_config : Config :=
  {| openai_api_key := "sk-test";
     openai_default_model := "gpt-4";
     aws_api_endpoint := "https://api.example/search";
     aws_websocket_url := "wss://ws.example";
     aws_api_key := "";
     app_debug := false |}.

(** Services that answer: the search endpoint accepts with the body [{}],
    the completion endpoint replies, a socket can be opened. *)
Definition env : Env :=
  {| requests_post := fun _ _ _ => Ok {| status_code := 202; response_json := loads "{}" |};
     openai_client := fun _ => Ok tt;
     chat_completions_create := fun _ _ => Ok {| choices := [Some " Hello! "] |};
     websocket_app := fun _ => Ok tt |}.

(** A session that has just been initialised. *)
Definition fresh : World :=
  {| session_state := Session.initial_session a_config;
     clients := [];
     sockets := [];
     events := [] |}.

(** The search endpoint accepts and names the conversation "abc". *)
Definition env_abc : Env :=
  {| requests_post := fun _ _ _ =>
       Ok {| status_code := 202;
             response_json := loads ("{" ++ quoted "conversation_id" ++ ":" ++ quoted "abc" ++ "}") |};
     openai_client := fun _ => Ok tt;
     chat_completions_create := fun _ _ => Ok {| choices := [Some " Hello! "] |};
     websocket_app := fun _ => Ok tt |}.

(** The search endpoint answers 500. *)
Definition env_500 : Env :=
  {| requests_post := fun _ _ _ =>
       Ok {| status_code := 500; response_json := Raise JSONDecodeError |};
     openai_client := fun _ => Ok tt;
     chat_completions_create := fun _ _ => Ok {| choices := [Some " Hello! "] |};
     websocket_app := fun _ => Ok tt |}.

(** No network: every call out raises. *)
Definition env_down : Env :=
  {| requests_post := fun _ _ _ => Raise (ExternalError "ConnectionError" "Connection refused");
     openai_client := fun _ => Ok tt;
     chat_completions_create := fun _ _ =>
       Raise (ExternalError "APIConnectionError" "Connection error.");
     websocket_app := fun _ => Raise (ExternalError "OSError" "Network is unreachable") |}.

Definition a_service : SearchService.SearchService :=
  SearchService.init (aws_api_endpoint a_config) (Some (aws_api_key a_config)).

(** The same after the Connect button and the handshake of the socket: the
    channel is live, the client object says so, the session does not. *)
Definition live : World :=
  after (@Sidebar.connect_websocket runtime env ;;; WebsocketClient._on_open 0) fresh.

End Reference.

(* ===================================================================== *)
(** ** Vocabulary of the properties *)
(* ===================================================================== *)

(** [needle] occurs in [s]: some text, [needle], some text. *)
Definition occurs_in (needle s : string) : Prop :=
  exists before behind, s = before ++ needle ++ behind.

(** The message [add_message] stores for a role and a text, with no search
    query, in session [s]. *)
Definition plain_message (s : SessionState) (role content : string) : dict :=
  [ ("role", JStr role);
    ("content", JStr content);
    ("timestamp", match _timestamp s with Some t => t | None => JInt 0 end) ].

(** Appending messages one after the other; an entry is (role, content,
    search query). *)
Fixpoint append_all (entries : list (string * string * option string)) : M unit :=
  match entries with
  | [] => ret tt
  | (role, content, search_query) :: rest =>
      Session.add_message role content search_query ;;; append_all rest
  end.

(** The frames of the examples. *)
Definition frame_one_result : string :=
  "{" ++ Reference.quoted "search_results" ++ ":[{" ++ Reference.quoted "title" ++ ":"
      ++ Reference.quoted "A" ++ "," ++ Reference.quoted "snippet" ++ ":"
      ++ Reference.quoted "B" ++ "}]}".

Definition frame_no_result : string :=
  "{" ++ Reference.quoted "search_results" ++ ":[]}".

Definition frame_other : string :=
  "{" ++ Reference.quoted "other" ++ ":1}".

(** The conversation ids of the search requests among some events, in the
    order they were sent. *)
Fixpoint sent_ids (evs : list event) : list (option json) :=
  match evs with
  | [] => []
  | Requests_post _ _ payload :: rest => dict_get "conversation_id" payload :: sent_ids rest
  | _ :: rest => sent_ids rest
  end.

(** A search dispatch: the service object, the query, and how the services
    outside answer at that time. *)
Record dispatch : Type := {
  the_env : Env;
  the_service : SearchService.SearchService;
  the_query : string
}.

Fixpoint dispatch_all (ds : list dispatch) : M unit :=
  match ds with
  | [] => ret tt
  | d :: rest =>
      @SearchService.perform_search (the_env d) (the_service d) (the_query d) ;;;
      dispatch_all rest
  end.

(** The dispatch of [query] from session [s] fails: the call raises, or the
    status of the response is not 202. *)
Definition dispatch_fails `{Env} (self : SearchService.SearchService)
    (s : SessionState) (query : string) : Prop :=
  match requests_post (SearchService.api_endpoint self) (SearchService.headers self)
          (SearchService.payload_of s query) with
  | Raise _ => True
  | Ok response => status_code response <> 202%Z
  end.

(** How the completion call for [msgs] fails, if it does: the call raises,
    or the response has no choice, or its first choice has no content. *)
Definition completion_failure `{Env} (model : string) (msgs : list dict) : option exn :=
  match chat_completions_create model msgs with
  | Raise e => Some e
  | Ok response =>
      match choices response with
      | [] => Some IndexError
      | None :: _ => Some AttributeError
      | Some _ :: _ => None
      end
  end.

(** [n] calls of [m] in a row. *)
Fixpoint times (n : nat) (m : M unit) : M unit :=
  match n with
  | O => ret tt
  | S n' => m ;;; times n' m
  end.

(** *** Vocabulary of the further properties *)

(** What an entry (role, content, search query) becomes in the transcript,
    and in the list sent to the completion endpoint. *)
Definition entry_message (s : SessionState) (entry : string * string * option string) : dict :=
  let '(role, content, search_query) := entry in
  Session.new_message s role content search_query.

Definition entry_pair (entry : string * string * option string) : dict :=
  let '(role, content, _) := entry in
  [("role", JStr role); ("content", JStr content)].

(** What the page shows for an entry of the transcript. *)
Definition entry_shown (entry : string * string * option string) : list event :=
  let '(role, content, _) := entry in
  if role =? "user" then [St_chat_message "user" content]
  else if role =? "assistant" then [St_chat_message "assistant" content]
  else if role =? "system" then [St_chat_message "assistant" ("System: " ++ content)]
  else [].

(** A 202 response from which no id can be taken: its body is not JSON, or
    not an object, or has no [conversation_id], or an empty one. *)
Definition carries_no_id (response : Response) : Prop :=
  match response_json response with
  | Raise _ => True
  | Ok body =>
      match py_get body "conversation_id" with
      | Raise _ => True
      | Ok id => truthy id = false
      end
  end.

(** A message as the application writes them: the role is "user" or
    "assistant", the content is a [str]. *)
Definition written_message (m : dict) : Prop :=
  exists role content,
    dict_get "role" m = Some (JStr role) /\
    dict_get "content" m = Some (JStr content) /\
    (role = "user" \/ role = "assistant").

(** What can happen to a session: a run of the chat page with what the
    input box holds, the three buttons and the model selector of the
    sidebar, and, on the thread of a socket, a frame, the handshake, the
    close and a transport error.  The services answer each time as they
    please. *)
Inductive action : Type :=
| Page (E : Env) (user_input : option string)
| Connect (E : Env)
| Disconnect
| Clear
| Select (model : string)
| Frame (frame : string)
| Opened (client : nat)
| Closed (client : nat)
| Failed (client : nat) (error : exn).

Definition perform `{Runtime} (a : action) : M unit :=
  match a with
  | Page E user_input => @ChatInterface.render_chat_interface _ E user_input
  | Connect E => @Sidebar.connect_websocket _ E
  | Disconnect => Sidebar.disconnect_websocket
  | Clear => Session.clear_conversation
  | Select model => update_session (set_openai_model model)
  | Frame frame => Sidebar.on_frame frame
  | Opened client => WebsocketClient._on_open client
  | Closed client => WebsocketClient._on_close client
  | Failed client error => Sidebar.on_transport_error client error
  end.

(** The state after a list of actions, each starting in the state the one
    before it has left.  Only that state is used, not how an action ends:
    where a page run or a button calls [st.rerun()], it is the last thing
    it does.  [Select] is the assignment to [st.session_state.openai_model]
    in [render_sidebar]. *)
Fixpoint perform_each `{Runtime} (actions : list action) (w : World) : World :=
  match actions with
  | [] => w
  | a :: rest => perform_each rest (after (perform a) w)
  end.

(** No socket has been closed by the application. *)
Definition none_closed (w : World) : Prop :=
  Forall (fun s => socket_closed s = false) (sockets w).

(** A new session with configuration [cfg]. *)
Definition new_world (cfg : Config) : World :=
  {| session_state := Session.initial_session cfg;
     clients := [];
     sockets := [];
     events := [] |}.

(** Opens the statements of a function of the application. *)
Ltac run_py := unfold try_except, bind, get_session, show, eval.

(* ===================================================================== *)
(** ** Strings *)
(* ===================================================================== *)

Lemma starts_with_spec (needle s : string) :
  starts_with needle s = true <-> exists behind, s = needle ++ behind.
Proof.
  revert s; induction needle as [| a needle IH]; intros s; simpl.
  - split; [intros _; now exists s | reflexivity].
  - destruct s as [| b s]; simpl.
    + split; [discriminate | intros [behind E]; discriminate E].
    + rewrite andb_true_iff, Ascii.eqb_eq, IH. split.
      * intros [-> [behind ->]]. now exists behind.
      * intros [behind E]. injection E as -> ->. split; [reflexivity | now exists behind].
Qed.

Lemma str_contains_spec (needle s : string) :
  str_contains needle s = true <-> occurs_in needle s.
Proof.
  unfold occurs_in. induction s as [| c s IH].
  - simpl. rewrite orb_false_r, starts_with_spec. split.
    + intros [behind E]. now exists EmptyString, behind.
    + intros [before [behind E]]. destruct before as [| x before]; [| discriminate E].
      now exists behind.
  - cbn [str_contains]. rewrite orb_true_iff, starts_with_spec, IH. split.
    + intros [[behind E] | [before [behind E]]].
      * now exists EmptyString, behind.
      * exists (String c before), behind. simpl. now rewrite E.
    + intros [before [behind E]]. destruct before as [| x before].
      * left. now exists behind.
      * right. simpl in E. injection E as _ E. now exists before, behind.
Qed.

(* ===================================================================== *)
(** ** The routing heuristic *)
(* ===================================================================== *)

(** C4. [should_use_semantic_search] answers true exactly when the lowercased
    input contains one of the eight fixed keywords as a substring.  The
    function reads nothing but its argument: it is an expression of the
    input alone, outside of the state the other operations run in. *)
Theorem should_search_iff_keyword `{Runtime} (user_input : string) :
  OpenaiService.should_use_semantic_search user_input = true <->
  exists keyword,
    In keyword [ "search"; "find"; "look up"; "lookup"; "search for";
                 "find information"; "get information"; "retrieve" ] /\
    occurs_in keyword (str_lower user_input).
Proof.
  unfold OpenaiService.should_use_semantic_search.
  rewrite existsb_exists. change OpenaiService.search_keywords with
    [ "search"; "find"; "look up"; "lookup"; "search for";
      "find information"; "get information"; "retrieve" ].
  split; intros [keyword [Hin Hk]]; exists keyword; split; trivial;
    now apply str_contains_spec.
Qed.

Example should_search_examples :
  @OpenaiService.should_use_semantic_search Reference.runtime "please search for cats" = true /\
  @OpenaiService.should_use_semantic_search Reference.runtime "hello there" = false /\
  @OpenaiService.should_use_semantic_search Reference.runtime "SEARCH" = true.
Proof. repeat split; reflexivity. Qed.

(* ===================================================================== *)
(** ** The conversation store *)
(* ===================================================================== *)

Lemma add_message_run (role content : string) (search_query : option string) (w : World) :
  Session.add_message role content search_query w =
    (Ok tt,
     with_session
       (set_messages (messages (session_state w)
                        ++ [Session.new_message (session_state w) role content search_query]))
       w).
Proof. reflexivity. Qed.

Lemma string_eqb_empty (q : string) : (q =? "") = false <-> q <> "".
Proof.
  destruct q; simpl; split; intro E; try reflexivity; try discriminate.
  now contradiction E.
Qed.

(** C9. The record [add_message] stores has a [search_query] field exactly
    when a search query that is not the empty string was passed; with [None]
    and with the empty string alike it is the three-field record. *)
Theorem add_message_search_query_field
    (role content : string) (search_query : option string) (w : World) :
  exists message,
    Session.add_message role content search_query w
      = (Ok tt, with_session (set_messages (messages (session_state w) ++ [message])) w) /\
    (dict_has "search_query" message = true <->
       exists q, search_query = Some q /\ q <> "") /\
    (forall q, search_query = Some q -> q <> "" ->
       dict_get "search_query" message = Some (JStr q)) /\
    (search_query = None \/ search_query = Some "" ->
       message = plain_message (session_state w) role content).
Proof.
  exists (Session.new_message (session_state w) role content search_query).
  split; [apply add_message_run |].
  unfold Session.new_message, plain_message.
  destruct search_query as [q |]; cbn [truthy].
  - destruct (q =? "") eqn:E; cbn [negb].
    + apply String.eqb_eq in E. subst q. repeat split.
      * discriminate.
      * intros [q [Hq Hne]]. injection Hq as <-. now contradiction Hne.
      * intros q Hq Hne. injection Hq as <-. now contradiction Hne.
    + apply string_eqb_empty in E. repeat split.
      * intros _. now exists q.
      * intros q' Hq _. injection Hq as <-. reflexivity.
      * intros [Hn | Hs]; [discriminate Hn | injection Hs as ->; now contradiction E].
  - repeat split.
    + discriminate.
    + intros [q [Hq _]]. discriminate Hq.
    + intros q Hq. discriminate Hq.
Qed.

Lemma append_all_run (entries : list (string * string * option string)) (w : World) :
  exists w',
    append_all entries w = (Ok tt, w') /\
    List.length (messages (session_state w'))
      = List.length (messages (session_state w)) + List.length entries.
Proof.
  revert w. induction entries as [| [[role content] search_query] rest IH]; intro w.
  - exists w. split; [reflexivity | simpl; lia].
  - cbn [append_all]. unfold bind. rewrite add_message_run.
    destruct (IH (with_session
                    (set_messages (messages (session_state w)
                       ++ [Session.new_message (session_state w) role content search_query]))
                    w)) as [w' [Hrun Hlen]].
    exists w'. split; [exact Hrun |].
    rewrite Hlen. simpl. rewrite length_app. simpl. lia.
Qed.

(** C7. Whatever messages are appended, and however many, [clear_conversation]
    afterwards leaves an empty transcript and no conversation id. *)
Theorem clear_after_appends (entries : list (string * string * option string)) (w : World) :
  let run := append_all entries ;;; Session.clear_conversation in
  result run w = Ok tt /\
  messages (session_state (after run w)) = [] /\
  conversation_id (session_state (after run w)) = JNull.
Proof.
  destruct (append_all_run entries w) as [w' [Hrun _]].
  unfold result, after, bind. rewrite Hrun. repeat split.
Qed.

(** C10. [clear_conversation] empties [messages], resets [conversation_id]
    to [None] and empties [search_results]; the connection flag, the selected
    model, the configuration and every other part of the state stay as they
    were. *)
Theorem clear_conversation_frame (w : World) :
  let w' := after Session.clear_conversation w in
  result Session.clear_conversation w = Ok tt /\
  messages (session_state w') = [] /\
  conversation_id (session_state w') = JNull /\
  search_results (session_state w') = JArr [] /\
  websocket_connected (session_state w') = websocket_connected (session_state w) /\
  openai_model (session_state w') = openai_model (session_state w) /\
  config (session_state w') = config (session_state w) /\
  websocket_client (session_state w') = websocket_client (session_state w) /\
  _timestamp (session_state w') = _timestamp (session_state w) /\
  clients w' = clients w /\
  sockets w' = sockets w /\
  events w' = events w.
Proof. repeat split. Qed.

(* ===================================================================== *)
(** ** The realtime channel: the two threads *)
(* ===================================================================== *)

(** On the script thread the functions written out statement by statement
    are the functions as the page script runs them. *)
Lemma add_message_on_script (role content : string) (search_query : option string)
    (w : World) :
  Session.add_message_on ScriptThread role content search_query w
    = Session.add_message role content search_query w.
Proof. reflexivity. Qed.

Lemma handle_websocket_error_on_script `{Runtime} (error : error_value) (w : World) :
  WebsocketClient.handle_websocket_error_on ScriptThread error w
    = WebsocketClient.handle_websocket_error error w.
Proof. reflexivity. Qed.

(** On the thread of a socket [add_message] builds its dict and then raises
    at [st.session_state.messages]: nothing is appended anywhere. *)
Lemma add_message_on_socket_thread (role content : string) (search_query : option string)
    (w : World) :
  Session.add_message_on SocketThread role content search_query w
    = (Raise AttributeError, w).
Proof. reflexivity. Qed.

(** There the error handler ends normally and reaches neither the session
    nor the page. *)
Lemma handle_websocket_error_on_socket_thread `{Runtime} (error : error_value) (w : World) :
  WebsocketClient.handle_websocket_error_on SocketThread error w = (Ok tt, w).
Proof. reflexivity. Qed.

(** The handshake reaches the client object and nothing else. *)
Lemma on_open_run (client : nat) (w : World) :
  WebsocketClient._on_open client w
    = (Ok tt,
       {| session_state := session_state w;
          clients := WebsocketClient.update_nth client
                       (WebsocketClient.set_is_connected true) (clients w);
          sockets := sockets w;
          events := events w |}).
Proof. reflexivity. Qed.

(* ===================================================================== *)
(** ** The realtime channel: connecting *)
(* ===================================================================== *)

(** C8 (the code on a connected channel).  On a new session the Connect
    button is pressed, the handshake completes, and the button is pressed
    again.  After the handshake the client object says it is connected and
    its socket is open, but the session's [websocket_connected], the one
    thing the guard of [connect_websocket] looks at, is still false:
    [_on_open] has set it on the socket's thread, where the session is not.
    The second call therefore is no no-op.  It reports
    "WebSocket connection initiated" like the first, not
    "WebSocket already connected", and opens a second socket, for a second
    client object, beside the first, which nothing closes. *)
Theorem second_connect_opens_second_socket :
  let connect := @Sidebar.connect_websocket Reference.runtime Reference.env in
  let w1 := Reference.live in
  let w2 := after connect w1 in
  clients w1 = [{| websocket_url := "wss://ws.example";
                   ws := Some 0; thread := Some 0; is_connected := true |}] /\
  sockets w1 = [{| socket_url := "wss://ws.example";
                   socket_owner := 0; socket_closed := false |}] /\
  websocket_connected (session_state w1) = false /\
  result connect w1 = Ok tt /\
  clients w2 = [{| websocket_url := "wss://ws.example";
                   ws := Some 0; thread := Some 0; is_connected := true |};
                {| websocket_url := "wss://ws.example";
                   ws := Some 1; thread := Some 1; is_connected := false |}] /\
  sockets w2 = [{| socket_url := "wss://ws.example";
                   socket_owner := 0; socket_closed := false |};
                {| socket_url := "wss://ws.example";
                   socket_owner := 1; socket_closed := false |}] /\
  websocket_client (session_state w1) = Some 0 /\
  websocket_client (session_state w2) = Some 1 /\
  events w2 = [ St_sidebar_success "WebSocket connection initiated";
                St_sidebar_success "WebSocket connection initiated" ].
Proof. repeat split. Qed.

(* ===================================================================== *)
(** ** The realtime channel: inbound frames *)
(* ===================================================================== *)

Lemma append_assoc (a b c : string) : (a ++ b) ++ c = a ++ b ++ c.
Proof. induction a as [| x a IH]; simpl; [reflexivity | now rewrite IH]. Qed.

(** A frame that is not JSON goes to the error callback, with one fixed
    reason, whatever the callbacks are. *)
Lemma on_message_malformed `{Runtime}
    (on_message : json -> M unit) (on_error : error_value -> M unit)
    (frame : string) (w : World) :
  json_loads frame = Raise JSONDecodeError ->
  WebsocketClient._on_message on_message on_error frame w
    = on_error (ErrText "Invalid message format") w.
Proof.
  intro Hp. unfold WebsocketClient._on_message, try_except, bind, eval.
  rewrite Hp. reflexivity.
Qed.

(** The message handler, whatever the data: it ends normally and has
    changed nothing.  With "search_results" in the data it gets as far as
    [add_message] at most, whose exception it catches. *)
Lemma handle_websocket_message_run `{Runtime} (data : json) (w : World) :
  WebsocketClient.handle_websocket_message data w = (Ok tt, w).
Proof.
  unfold WebsocketClient.handle_websocket_message, try_except, bind, eval.
  destruct (py_in "search_results" data) as [[|] | e]; [| | reflexivity].
  - destruct (py_getitem data "search_results") as [results | e]; [| reflexivity].
    destruct (py_len results) as [n | e]; [| reflexivity].
    cbn [session_write ret].
    destruct (truthy results); [| reflexivity].
    destruct (py_iter results) as [items | e]; [| reflexivity].
    destruct (WebsocketClient.format_results 1 items _) as [text | e]; reflexivity.
  - destruct (py_keys data); reflexivity.
Qed.

(** So does the handling of a frame, whatever the frame. *)
Lemma on_frame_run `{Runtime} (frame : string) (w : World) :
  Sidebar.on_frame frame w = (Ok tt, w).
Proof.
  unfold Sidebar.on_frame, WebsocketClient._on_message, try_except, bind, eval.
  destruct (json_loads frame) as [data | e].
  - rewrite handle_websocket_message_run. reflexivity.
  - destruct e; reflexivity.
Qed.

(** C1. A frame that is not JSON.  [_on_message] hands the one reason
    "Invalid message format" to the error callback, whatever the callbacks
    are, and does nothing besides.  With the handlers the sidebar registers
    the handling ends without an exception and the connection is as it
    was: the session's [websocket_connected], the client objects with
    their [is_connected] and the sockets, none of which is closed, are the
    same after the frame as before, as is all the rest of the state. *)
Theorem malformed_frame_keeps_connection `{Runtime} (frame : string) (w : World) :
  json_loads frame = Raise JSONDecodeError ->
  let w' := after (Sidebar.on_frame frame) w in
  (forall (on_message : json -> M unit) (on_error : error_value -> M unit),
      WebsocketClient._on_message on_message on_error frame w
        = on_error (ErrText "Invalid message format") w) /\
  Sidebar.on_frame frame w
    = WebsocketClient.handle_websocket_error_on SocketThread
        (ErrText "Invalid message format") w /\
  result (Sidebar.on_frame frame) w = Ok tt /\
  websocket_connected (session_state w') = websocket_connected (session_state w) /\
  clients w' = clients w /\
  sockets w' = sockets w /\
  w' = w.
Proof.
  intros Hp w'. subst w'. split; [| split].
  - intros on_message on_error. now apply on_message_malformed.
  - unfold Sidebar.on_frame. now apply on_message_malformed.
  - unfold result, after. rewrite on_frame_run. repeat split.
Qed.

(** C1 on the frame [not json], received on the live channel of the
    examples. *)
Lemma malformed_frame_keeps_connection_witness :
  @json_loads Reference.runtime "not json" = Raise JSONDecodeError /\
  after (@Sidebar.on_frame Reference.runtime "not json") Reference.live = Reference.live /\
  clients Reference.live
    = [{| websocket_url := "wss://ws.example";
          ws := Some 0; thread := Some 0; is_connected := true |}] /\
  sockets Reference.live
    = [{| socket_url := "wss://ws.example"; socket_owner := 0; socket_closed := false |}].
Proof.
  pose proof (@malformed_frame_keeps_connection Reference.runtime "not json"
                Reference.live eq_refl) as (_ & _ & _ & _ & _ & _ & Hsame).
  split; [reflexivity |]. split; [exact Hsame |]. split; reflexivity.
Defined.

(** C2 (the code at the frames of the specification).  The three frames
    parse.  Received on the live channel of the examples, whose transcript
    is empty, each of them leaves the state as it is: the frame with one
    result and the frame with none append no message, like the frame
    without "search_results".  The handler does call [add_message] for
    the first two, on the socket's thread, where the call raises and the
    handler catches the exception. *)
Theorem search_results_frames_append_nothing :
  let w := Reference.live in
  let receive frame := @Sidebar.on_frame Reference.runtime frame w in
  @json_loads Reference.runtime frame_one_result
    = Ok (JObj [("search_results",
                 JArr [JObj [("title", JStr "A"); ("snippet", JStr "B")]])]) /\
  @json_loads Reference.runtime frame_no_result
    = Ok (JObj [("search_results", JArr [])]) /\
  @json_loads Reference.runtime frame_other = Ok (JObj [("other", JInt 1)]) /\
  messages (session_state w) = [] /\
  receive frame_one_result = (Ok tt, w) /\
  receive frame_no_result = (Ok tt, w) /\
  receive frame_other = (Ok tt, w) /\
  Session.add_message_on SocketThread "assistant" "No search results found." None w
    = (Raise AttributeError, w).
Proof. repeat split. Qed.

(* ===================================================================== *)
(** ** The search dispatcher *)
(* ===================================================================== *)

Lemma sent_ids_app (a b : list event) :
  sent_ids (a ++ b) = (sent_ids a ++ sent_ids b)%list.
Proof.
  induction a as [| e a IH]; simpl; [reflexivity |].
  destruct e; simpl; now rewrite ?IH.
Qed.

(** Once an id is stored, a dispatch sends it and leaves the session alone,
    whatever the endpoint answers. *)
Lemma perform_search_with_id `{Env} (self : SearchService.SearchService)
    (query : string) (w : World) :
  truthy (conversation_id (session_state w)) = true ->
  let w' := after (SearchService.perform_search self query) w in
  session_state w' = session_state w /\
  events w' = (events w ++
    [Requests_post (SearchService.api_endpoint self) (SearchService.headers self)
       [("query", JStr query); ("conversation_id", conversation_id (session_state w))]])%list.
Proof.
  intro Hid.
  unfold after, SearchService.perform_search, try_except, bind, get_session, show, eval,
    SearchService.payload_of, py_or.
  rewrite Hid. cbn [session_state emit].
  destruct (requests_post _ _ _) as [response | e]; [| split; reflexivity].
  destruct (status_code response =? 202)%Z; [| split; reflexivity].
  unfold emit. cbn [session_state]. rewrite Hid. split; reflexivity.
Qed.

Lemma dispatch_all_with_id (ds : list dispatch) (w : World) :
  truthy (conversation_id (session_state w)) = true ->
  let w' := after (dispatch_all ds) w in
  session_state w' = session_state w /\
  sent_ids (events w')
    = (sent_ids (events w)
         ++ repeat (Some (conversation_id (session_state w))) (List.length ds))%list.
Proof.
  revert w. induction ds as [| d rest IH]; intros w Hid.
  - cbn. now rewrite app_nil_r.
  - destruct (@perform_search_with_id (the_env d) (the_service d) (the_query d) w Hid)
      as [Hs He].
    unfold after in *. cbn [dispatch_all]. unfold bind.
    destruct (@SearchService.perform_search (the_env d) (the_service d) (the_query d) w)
      as [[b | e] w1] eqn:Hrun; cbn [snd] in Hs, He.
    + assert (Hid1 : truthy (conversation_id (session_state w1)) = true)
        by now rewrite Hs.
      destruct (IH w1 Hid1) as [Hs2 He2]. split.
      * now rewrite Hs2.
      * rewrite He2, He, Hs, sent_ids_app. cbn [sent_ids dict_get String.eqb].
        cbn. now rewrite <- app_assoc.
    + exfalso. revert Hrun.
      unfold SearchService.perform_search. run_py.
      destruct (requests_post _ _ _) as [response | e']; [| discriminate].
      destruct (status_code response =? 202)%Z; [| discriminate].
      cbn [session_state emit]. rewrite Hid. discriminate.
Qed.

(** C6. A dispatch made while no conversation id is stored carries
    "new_conversation"; when the endpoint answers 202 with a body whose
    [conversation_id] is an id, that id is stored, and every later dispatch
    carries it. *)
Theorem conversation_id_adopted `{Env} (self : SearchService.SearchService)
    (query : string) (w : World) (response : Response) (body id : json) :
  truthy (conversation_id (session_state w)) = false ->
  requests_post (SearchService.api_endpoint self) (SearchService.headers self)
    (SearchService.payload_of (session_state w) query) = Ok response ->
  status_code response = 202%Z ->
  response_json response = Ok body ->
  py_get body "conversation_id" = Ok id ->
  truthy id = true ->
  let w1 := after (SearchService.perform_search self query) w in
  result (SearchService.perform_search self query) w = Ok true /\
  sent_ids (events w1) = (sent_ids (events w) ++ [Some (JStr "new_conversation")])%list /\
  conversation_id (session_state w1) = id /\
  forall ds : list dispatch,
    let w2 := after (dispatch_all ds) w1 in
    conversation_id (session_state w2) = id /\
    sent_ids (events w2)
      = (sent_ids (events w1) ++ repeat (Some id) (List.length ds))%list.
Proof.
  intros Hno Hpost Hst Hjson Hget Hid w1.
  assert (Hrun : SearchService.perform_search self query w
                 = (Ok true,
                    with_session (set_conversation_id id)
                      (emit (Requests_post (SearchService.api_endpoint self)
                               (SearchService.headers self)
                               (SearchService.payload_of (session_state w) query)) w))).
  { unfold SearchService.perform_search. run_py.
    cbn [session_state emit]. rewrite Hpost, Hst. cbn [Z.eqb Pos.eqb session_state emit].
    rewrite Hno. cbn [negb].
    unfold SearchService.adopt_conversation_id, try_except, bind, eval.
    rewrite Hjson, Hget, Hid. reflexivity. }
  subst w1. unfold result, after. rewrite Hrun. cbn [fst snd].
  split; [reflexivity |]. split.
  - cbn [events with_session emit]. rewrite sent_ids_app.
    unfold SearchService.payload_of, py_or. rewrite Hno. reflexivity.
  - split; [reflexivity |]. intros ds.
    pose proof (dispatch_all_with_id ds
                  (with_session (set_conversation_id id)
                     (emit (Requests_post (SearchService.api_endpoint self)
                              (SearchService.headers self)
                              (SearchService.payload_of (session_state w) query)) w))
                  Hid) as [Hs He].
    unfold after in Hs, He. split; [rewrite Hs | rewrite He]; reflexivity.
Qed.

(** C6 on a new session: a dispatch that is accepted with the id "abc",
    then one that the endpoint refuses. *)
Lemma conversation_id_adopted_witness :
  let first := @SearchService.perform_search Reference.env_abc Reference.a_service "find cats" in
  let second := @SearchService.perform_search Reference.env_500 Reference.a_service "find dogs" in
  conversation_id (session_state Reference.fresh) = JNull /\
  conversation_id (session_state (after first Reference.fresh)) = JStr "abc" /\
  sent_ids (events (after (first ;;; second ;;; ret tt) Reference.fresh))
    = [Some (JStr "new_conversation"); Some (JStr "abc")].
Proof.
  pose proof (@conversation_id_adopted Reference.env_abc Reference.a_service "find cats"
                Reference.fresh
                {| status_code := 202;
                   response_json := Ok (JObj [("conversation_id", JStr "abc")]) |}
                (JObj [("conversation_id", JStr "abc")]) (JStr "abc")
                eq_refl eq_refl eq_refl eq_refl eq_refl eq_refl) as (_ & _ & Hid & Hlater).
  specialize (Hlater [{| the_env := Reference.env_500;
                         the_service := Reference.a_service;
                         the_query := "find dogs" |}]) as [_ Hsent].
  split; [reflexivity |]. split; [exact Hid | exact Hsent].
Defined.

(** A dispatch never raises: it answers true or false. *)
Lemma perform_search_total `{Env} (self : SearchService.SearchService)
    (query : string) (w : World) :
  exists (accepted : bool) (w' : World),
    SearchService.perform_search self query w = (Ok accepted, w').
Proof.
  unfold SearchService.perform_search. run_py.
  destruct (requests_post _ _ _) as [response | e]; [| do 2 eexists; reflexivity].
  destruct (status_code response =? 202)%Z; [| do 2 eexists; reflexivity].
  destruct (negb _); [| do 2 eexists; reflexivity].
  unfold SearchService.adopt_conversation_id, try_except, bind, eval.
  destruct (response_json response) as [body | e]; [| do 2 eexists; reflexivity].
  destruct (py_get body "conversation_id") as [id | e]; [| do 2 eexists; reflexivity].
  destruct (truthy id); do 2 eexists; reflexivity.
Qed.

Lemma perform_search_failure `{Env} (self : SearchService.SearchService)
    (query : string) (w : World) :
  dispatch_fails self (session_state w) query ->
  SearchService.perform_search self query w
    = (Ok false,
       emit (Requests_post (SearchService.api_endpoint self) (SearchService.headers self)
               (SearchService.payload_of (session_state w) query)) w).
Proof.
  unfold dispatch_fails.
  unfold SearchService.perform_search. run_py.
  cbn [session_state emit].
  destruct (requests_post _ _ _) as [response | e]; [| reflexivity].
  intro Hst. apply Z.eqb_neq in Hst. rewrite Hst. reflexivity.
Qed.

(** On the search route the reply is one fixed text, whatever the dispatch
    answered. *)
Lemma search_reply_fixed `{Runtime} `{Env} (user_input : string)
    (self : SearchService.SearchService) (w : World) :
  OpenaiService.should_use_semantic_search user_input = true ->
  result (OpenaiService.process_user_input user_input self) w
    = Ok "Searching for relevant information...".
Proof.
  intro Hs. unfold result, OpenaiService.process_user_input, bind at 1.
  rewrite add_message_run, Hs. unfold bind, ret.
  destruct (perform_search_total self user_input
              (with_session
                 (set_messages (messages (session_state w)
                    ++ [Session.new_message (session_state w) "user" user_input None])) w))
    as (accepted & w' & Hrun).
  rewrite Hrun. reflexivity.
Qed.

(** C3, as the code has it.  A dispatch that fails, by a status other than
    202 or by an exception of the HTTP call, returns false, raises nothing
    and leaves the session, the conversation id included, as it was.  The
    caller that routed the message to search goes on: it appends the user's
    message, and replies "Searching for relevant information...", the
    reply it gives whatever the services answer. *)
Theorem failed_dispatch_is_silent `{Runtime} `{Env} (self : SearchService.SearchService)
    (user_input : string) (w : World) :
  dispatch_fails self (session_state w) user_input ->
  SearchService.perform_search self user_input w
    = (Ok false,
       emit (Requests_post (SearchService.api_endpoint self) (SearchService.headers self)
               (SearchService.payload_of (session_state w) user_input)) w) /\
  (OpenaiService.should_use_semantic_search user_input = true ->
   OpenaiService.process_user_input user_input self w
     = (Ok "Searching for relevant information...",
        emit (Requests_post (SearchService.api_endpoint self) (SearchService.headers self)
                (SearchService.payload_of (session_state w) user_input))
          (with_session
             (set_messages (messages (session_state w)
                              ++ [plain_message (session_state w) "user" user_input]))
             w)) /\
   forall other : Env,
     result (@OpenaiService.process_user_input _ other user_input self) w
       = Ok "Searching for relevant information...").
Proof.
  intro Hfail. split; [now apply perform_search_failure |].
  intro Hs. split.
  - unfold OpenaiService.process_user_input, bind at 1.
    rewrite add_message_run, Hs. unfold bind at 1.
    rewrite perform_search_failure by exact Hfail. reflexivity.
  - intro other. now apply search_reply_fixed.
Qed.

(** C3 on a new session and a search endpoint that answers 500. *)
Lemma failed_dispatch_is_silent_witness :
  let w := Reference.fresh in
  let w' := after (@OpenaiService.process_user_input Reference.runtime Reference.env_500
                     "please search for cats" Reference.a_service) w in
  result (@SearchService.perform_search Reference.env_500 Reference.a_service
            "please search for cats") w = Ok false /\
  conversation_id (session_state w') = conversation_id (session_state w) /\
  List.length (messages (session_state w')) = 1.
Proof.
  pose proof (@failed_dispatch_is_silent Reference.runtime Reference.env_500
                Reference.a_service "please search for cats" Reference.fresh
                ltac:(discriminate)) as [Hd Hc].
  destruct (Hc eq_refl) as [Hrun _].
  unfold result, after. rewrite Hd, Hrun.
  split; [reflexivity |]. split; reflexivity.
Defined.

(** C3, as stated, at a search endpoint that answers 500: the dispatch
    returns false, and what the caller replies, stores and shows is what it
    replies, stores and shows when the dispatch is accepted.  The transcript
    holds the user's message alone and no notice of a failure is shown. *)
Lemma failed_dispatch_shows_no_notice :
  let failing := @OpenaiService.process_user_input Reference.runtime Reference.env_500
                   "please search for cats" Reference.a_service in
  let accepted := @OpenaiService.process_user_input Reference.runtime Reference.env
                    "please search for cats" Reference.a_service in
  result (@SearchService.perform_search Reference.env_500 Reference.a_service
            "please search for cats") Reference.fresh = Ok false /\
  result (@SearchService.perform_search Reference.env Reference.a_service
            "please search for cats") Reference.fresh = Ok true /\
  failing Reference.fresh = accepted Reference.fresh /\
  result failing Reference.fresh = Ok "Searching for relevant information..." /\
  messages (session_state (after failing Reference.fresh))
    = [[ ("role", JStr "user");
         ("content", JStr "please search for cats");
         ("timestamp", JInt 0) ]] /\
  events (after failing Reference.fresh)
    = [Requests_post "https://api.example/search" []
         [("query", JStr "please search for cats");
          ("conversation_id", JStr "new_conversation")]].
Proof. repeat split. Qed.

(* ===================================================================== *)
(** ** The completion client *)
(* ===================================================================== *)

Lemma generate_response_failure `{Runtime} `{Env} (msgs : list dict) (model : string)
    (e : exn) (w : World) :
  completion_failure model msgs = Some e ->
  OpenaiService.generate_response msgs model w = (Raise e, w).
Proof.
  unfold completion_failure, OpenaiService.generate_response, try_except, bind, eval, raise.
  destruct (chat_completions_create model msgs) as [response | e'].
  - destruct (choices response) as [| [content |] rest]; intro E;
      try discriminate E; injection E as <-; reflexivity.
  - intro E. injection E as <-. reflexivity.
Qed.

(** A failed completion call does not raise out of [process_user_input]:
    the reply is the text "Error: ..." and the transcript has gained the
    user's message only. *)
Lemma process_user_input_completion_failure `{Runtime} `{Env} (user_input : string)
    (self : SearchService.SearchService) (w : World) (msgs : list dict) (e : exn) :
  OpenaiService.should_use_semantic_search user_input = false ->
  Session.role_and_content
    (messages (session_state w) ++ [plain_message (session_state w) "user" user_input])
    = Ok msgs ->
  openai_client (openai_api_key (config (session_state w))) = Ok tt ->
  completion_failure (openai_model (session_state w)) msgs = Some e ->
  OpenaiService.process_user_input user_input self w
    = (Ok ("Error: " ++ str_exn e),
       with_session
         (set_messages (messages (session_state w)
                          ++ [plain_message (session_state w) "user" user_input]))
         w).
Proof.
  intros Hs Hmsgs Hclient Hfail.
  unfold OpenaiService.process_user_input, bind at 1.
  rewrite add_message_run, Hs.
  unfold try_except, Session.get_messages_for_openai, bind, get_session, eval.
  cbn [session_state with_session messages set_messages config openai_model].
  unfold Session.new_message. fold (plain_message (session_state w) "user" user_input).
  rewrite Hmsgs, Hclient.
  rewrite (generate_response_failure msgs _ e _ Hfail). reflexivity.
Qed.

(** C5 (the code when the completion call fails).  The user sends "hello"
    and the completion endpoint cannot be reached.  [process_user_input]
    returns the text "Error: Connection error." and raises nothing; the page
    stores and shows none of it: the transcript holds the user's message
    alone, and the next run of the page displays that one message. *)
Theorem completion_error_is_not_shown :
  let w1 := after (@ChatInterface.render_chat_interface Reference.runtime Reference.env_down
                     (Some "hello")) Reference.fresh in
  let w2 := after (@ChatInterface.render_chat_interface Reference.runtime Reference.env_down
                     None) w1 in
  result (@OpenaiService.process_user_input Reference.runtime Reference.env_down
            "hello" Reference.a_service) Reference.fresh
    = Ok "Error: Connection error." /\
  messages (session_state w1)
    = [[ ("role", JStr "user"); ("content", JStr "hello"); ("timestamp", JInt 0) ]] /\
  events w1 = [St_info "Send a message to start the conversation!"; St_rerun] /\
  events w2 = (events w1 ++ [St_chat_message "user" "hello"])%list.
Proof. repeat split. Qed.

(* ===================================================================== *)
(** ** Further properties: the transcript *)
(* ===================================================================== *)

(** What a run of appends does, to every part of the state. *)
Lemma append_all_cases (entries : list (string * string * option string)) (w : World) :
  let w' := after (append_all entries) w in
  result (append_all entries) w = Ok tt /\
  messages (session_state w')
    = (messages (session_state w) ++ map (entry_message (session_state w)) entries)%list /\
  conversation_id (session_state w') = conversation_id (session_state w) /\
  websocket_connected (session_state w') = websocket_connected (session_state w) /\
  search_results (session_state w') = search_results (session_state w) /\
  openai_model (session_state w') = openai_model (session_state w) /\
  config (session_state w') = config (session_state w) /\
  websocket_client (session_state w') = websocket_client (session_state w) /\
  _timestamp (session_state w') = _timestamp (session_state w) /\
  clients w' = clients w /\ sockets w' = sockets w /\ events w' = events w.
Proof.
  revert w. induction entries as [| [[role content] search_query] rest IH]; intro w.
  - cbn. rewrite app_nil_r. repeat split.
  - unfold result, after in *. cbn [append_all]. unfold bind.
    rewrite add_message_run.
    set (w1 := with_session _ w).
    destruct (IH w1) as (Hr & Hm & Hid & Hc & Hsr & Hmo & Hcf & Hcl & Hts & Hcs & Hso & Hev).
    rewrite Hr, Hm, Hid, Hc, Hsr, Hmo, Hcf, Hcl, Hts, Hcs, Hso, Hev.
    repeat split.
    subst w1. cbn [session_state with_session messages set_messages map entry_message].
    rewrite <- app_assoc. reflexivity.
Qed.

(** X1. Appending is all that appending does: the messages that were there
    stay, in place and unchanged, the new ones follow in the order of the
    calls, each stamped with the session's [_timestamp] (0 when there is
    none), and no other part of the state is touched. *)
Theorem transcript_append_only (entries : list (string * string * option string)) (w : World) :
  let w' := after (append_all entries) w in
  result (append_all entries) w = Ok tt /\
  messages (session_state w')
    = (messages (session_state w) ++ map (entry_message (session_state w)) entries)%list /\
  conversation_id (session_state w') = conversation_id (session_state w) /\
  websocket_connected (session_state w') = websocket_connected (session_state w) /\
  search_results (session_state w') = search_results (session_state w) /\
  openai_model (session_state w') = openai_model (session_state w) /\
  config (session_state w') = config (session_state w) /\
  websocket_client (session_state w') = websocket_client (session_state w) /\
  _timestamp (session_state w') = _timestamp (session_state w) /\
  clients w' = clients w /\ sockets w' = sockets w /\ events w' = events w.
Proof. exact (append_all_cases entries w). Qed.

Lemma role_and_content_app (a b ra rb : list dict) :
  Session.role_and_content a = Ok ra ->
  Session.role_and_content b = Ok rb ->
  Session.role_and_content (a ++ b) = Ok (ra ++ rb)%list.
Proof.
  revert ra. induction a as [| m a IH]; intros ra Ha Hb.
  - injection Ha as <-. exact Hb.
  - cbn [app Session.role_and_content] in *.
    destruct (py_getitem (JObj m) "role") as [r | e]; [| discriminate Ha].
    destruct (py_getitem (JObj m) "content") as [c | e]; [| discriminate Ha].
    cbn [res_bind] in *.
    destruct (Session.role_and_content a) as [out | e]; [| discriminate Ha].
    cbn [res_bind] in Ha. injection Ha as <-.
    rewrite (IH out eq_refl Hb). reflexivity.
Qed.

Lemma role_and_content_entries (s : SessionState)
    (entries : list (string * string * option string)) :
  Session.role_and_content (map (entry_message s) entries) = Ok (map entry_pair entries).
Proof.
  induction entries as [| [[role content] search_query] rest IH]; [reflexivity |].
  cbn [map entry_message entry_pair Session.role_and_content]. rewrite IH.
  unfold Session.new_message.
  destruct search_query as [q |]; [destruct (truthy (JStr q)) |]; reflexivity.
Qed.

(** X2. What is sent to the completion endpoint is the transcript in
    insertion order, each message cut down to its role and content: the
    timestamp and the search query are left behind.  Building that list
    raises nothing on messages [add_message] has written. *)
Theorem transcript_snapshot (entries : list (string * string * option string))
    (w : World) (base : list dict) :
  Session.role_and_content (messages (session_state w)) = Ok base ->
  result (append_all entries ;;; Session.get_messages_for_openai) w
    = Ok (base ++ map entry_pair entries)%list.
Proof.
  intro Hbase.
  destruct (append_all_cases entries w) as (Hr & Hm & _).
  unfold result, after in *. unfold bind.
  destruct (append_all entries w) as [[[] | e] w'] eqn:Hrun; cbn [fst snd] in *;
    [| discriminate Hr].
  unfold Session.get_messages_for_openai, bind, get_session, eval. cbn [fst].
  rewrite Hm. apply role_and_content_app; [exact Hbase |].
  apply role_and_content_entries.
Qed.

(** X2 on the two-message conversation: hi, hello. *)
Lemma transcript_snapshot_witness :
  result (append_all [("user", "hi", Some "greetings"); ("assistant", "hello", None)]
            ;;; Session.get_messages_for_openai) Reference.fresh
    = Ok [ [("role", JStr "user"); ("content", JStr "hi")];
           [("role", JStr "assistant"); ("content", JStr "hello")] ].
Proof.
  exact (transcript_snapshot
           [("user", "hi", Some "greetings"); ("assistant", "hello", None)]
           Reference.fresh [] eq_refl).
Defined.

(* ===================================================================== *)
(** ** Further properties: the search dispatcher *)
(* ===================================================================== *)

(** What a dispatch does, in all its cases. *)
Lemma perform_search_cases `{Env} (self : SearchService.SearchService)
    (query : string) (w : World) :
  let run := SearchService.perform_search self query in
  let w' := after run w in
  (result run w = Ok true \/ result run w = Ok false) /\
  (result run w = Ok true <->
     exists response,
       requests_post (SearchService.api_endpoint self) (SearchService.headers self)
         (SearchService.payload_of (session_state w) query) = Ok response /\
       status_code response = 202%Z) /\
  events w' = (events w ++
    [Requests_post (SearchService.api_endpoint self) (SearchService.headers self)
       (SearchService.payload_of (session_state w) query)])%list /\
  messages (session_state w') = messages (session_state w) /\
  websocket_connected (session_state w') = websocket_connected (session_state w) /\
  search_results (session_state w') = search_results (session_state w) /\
  openai_model (session_state w') = openai_model (session_state w) /\
  config (session_state w') = config (session_state w) /\
  websocket_client (session_state w') = websocket_client (session_state w) /\
  _timestamp (session_state w') = _timestamp (session_state w) /\
  clients w' = clients w /\
  sockets w' = sockets w /\
  (truthy (conversation_id (session_state w)) = true ->
   conversation_id (session_state w') = conversation_id (session_state w)).
Proof.
  unfold result, after, SearchService.perform_search. run_py.
  cbn [session_state emit].
  destruct (requests_post _ _ _) as [response | e] eqn:Hpost.
  - destruct (status_code response =? 202)%Z eqn:Hst.
    + apply Z.eqb_eq in Hst.
      assert (Hyes : exists r, Ok response = Ok r /\ status_code r = 202%Z)
        by (exists response; now split).
      cbn [session_state emit].
      destruct (truthy (conversation_id (session_state w))) eqn:Hid; cbn [negb].
      * cbn. repeat split; auto.
      * unfold SearchService.adopt_conversation_id, try_except, bind, eval.
        destruct (response_json response) as [body | e];
          [destruct (py_get body "conversation_id") as [id | e];
            [destruct (truthy id) |] |];
          cbn; repeat split; auto; discriminate.
    + apply Z.eqb_neq in Hst. cbn. repeat split; auto; try discriminate.
      intros [r [Hr H202]]. injection Hr as <-. now contradiction Hst.
  - cbn. repeat split; auto; try discriminate.
    intros [r [Hr _]]. discriminate Hr.
Qed.

(** X3. Every dispatch, whatever the endpoint does, returns a boolean and
    raises nothing; the boolean is true exactly when a response came back
    with status 202.  It posts one request, to the endpoint and with the
    headers of the service object, and of the session it can change the
    conversation id only, and that only while none is stored. *)
Theorem perform_search_outcome `{Env} (self : SearchService.SearchService)
    (query : string) (w : World) :
  let run := SearchService.perform_search self query in
  let w' := after run w in
  (result run w = Ok true \/ result run w = Ok false) /\
  (result run w = Ok true <->
     exists response,
       requests_post (SearchService.api_endpoint self) (SearchService.headers self)
         (SearchService.payload_of (session_state w) query) = Ok response /\
       status_code response = 202%Z) /\
  events w' = (events w ++
    [Requests_post (SearchService.api_endpoint self) (SearchService.headers self)
       (SearchService.payload_of (session_state w) query)])%list /\
  messages (session_state w') = messages (session_state w) /\
  websocket_connected (session_state w') = websocket_connected (session_state w) /\
  search_results (session_state w') = search_results (session_state w) /\
  openai_model (session_state w') = openai_model (session_state w) /\
  config (session_state w') = config (session_state w) /\
  websocket_client (session_state w') = websocket_client (session_state w) /\
  _timestamp (session_state w') = _timestamp (session_state w) /\
  clients w' = clients w /\
  sockets w' = sockets w /\
  (truthy (conversation_id (session_state w)) = true ->
   conversation_id (session_state w') = conversation_id (session_state w)).
Proof. exact (perform_search_cases self query w). Qed.

(** X4. A 202 answer counts as accepted also when no id can be taken from
    it: when the body is not JSON, is not an object, or names no
    conversation.  The dispatch returns true and the stored id stays as it
    is. *)
Theorem accepted_without_id `{Env} (self : SearchService.SearchService)
    (query : string) (w : World) (response : Response) :
  requests_post (SearchService.api_endpoint self) (SearchService.headers self)
    (SearchService.payload_of (session_state w) query) = Ok response ->
  status_code response = 202%Z ->
  carries_no_id response ->
  SearchService.perform_search self query w
    = (Ok true,
       emit (Requests_post (SearchService.api_endpoint self) (SearchService.headers self)
               (SearchService.payload_of (session_state w) query)) w).
Proof.
  intros Hpost Hst Hno. unfold carries_no_id in Hno.
  unfold SearchService.perform_search. run_py. cbn [session_state emit].
  rewrite Hpost, Hst. cbn [Z.eqb Pos.eqb session_state emit].
  destruct (negb (truthy (conversation_id (session_state w)))); [| reflexivity].
  unfold SearchService.adopt_conversation_id, try_except, bind, eval.
  destruct (response_json response) as [body | e]; [| reflexivity].
  destruct (py_get body "conversation_id") as [id | e]; [| reflexivity].
  rewrite Hno. reflexivity.
Qed.

(** X4 on a new session and an endpoint that accepts with the body [{}]. *)
Lemma accepted_without_id_witness :
  let run := @SearchService.perform_search Reference.env Reference.a_service "find cats" in
  result run Reference.fresh = Ok true /\
  conversation_id (session_state (after run Reference.fresh)) = JNull.
Proof.
  pose proof (@accepted_without_id Reference.env Reference.a_service "find cats"
                Reference.fresh
                {| status_code := 202; response_json := Ok (JObj []) |}
                eq_refl eq_refl eq_refl) as Hrun.
  unfold result, after. rewrite Hrun. split; reflexivity.
Defined.

(* ===================================================================== *)
(** ** Further properties: routing and the completion client *)
(* ===================================================================== *)

Lemma str_contains_within (inner outer s : string) :
  str_contains inner outer = true ->
  str_contains outer s = true ->
  str_contains inner s = true.
Proof.
  rewrite !str_contains_spec. intros (a & b & ->) (c & d & ->).
  exists (c ++ a), (b ++ d). now rewrite !append_assoc.
Qed.

(** X5. Two of the eight keywords never decide: a text that contains
    "search for" contains "search", and one that contains
    "find information" contains "find".  The routing is that of the six
    others. *)
Theorem six_keywords_decide `{Runtime} (user_input : string) :
  OpenaiService.should_use_semantic_search user_input
    = existsb (fun keyword => str_contains keyword (str_lower user_input))
        [ "search"; "find"; "look up"; "lookup"; "get information"; "retrieve" ].
Proof.
  unfold OpenaiService.should_use_semantic_search, OpenaiService.search_keywords.
  cbn [existsb].
  pose proof (str_contains_within "search" "search for" (str_lower user_input) eq_refl) as Hs.
  pose proof (str_contains_within "find" "find information" (str_lower user_input) eq_refl) as Hf.
  destruct (str_contains "search for" (str_lower user_input));
    [rewrite (Hs eq_refl); reflexivity |].
  destruct (str_contains "find information" (str_lower user_input));
    [rewrite (Hf eq_refl), !orb_true_r; reflexivity |].
  reflexivity.
Qed.

(** The completion call leaves the state alone, whether it replies or raises. *)
Lemma generate_response_pure `{Runtime} `{Env} (msgs : list dict) (model : string) (w : World) :
  exists r, OpenaiService.generate_response msgs model w = (r, w).
Proof.
  unfold OpenaiService.generate_response, try_except, bind, eval, raise, ret.
  destruct (chat_completions_create model msgs) as [response | e]; [| eauto].
  destruct (choices response) as [| [content |] rest]; eauto.
Qed.

(** What [process_user_input] does, on both routes. *)
Lemma process_user_input_cases `{Runtime} `{Env} (user_input : string)
    (self : SearchService.SearchService) (w : World) :
  let run := OpenaiService.process_user_input user_input self in
  let w' := after run w in
  let user := plain_message (session_state w) "user" user_input in
  exists reply,
    result run w = Ok reply /\
    (messages (session_state w') = (messages (session_state w) ++ [user])%list \/
     messages (session_state w')
       = (messages (session_state w)
            ++ [user; plain_message (session_state w) "assistant" reply])%list) /\
    (OpenaiService.should_use_semantic_search user_input = true ->
       messages (session_state w') = (messages (session_state w) ++ [user])%list /\
       events w' = (events w ++
         [Requests_post (SearchService.api_endpoint self) (SearchService.headers self)
            (SearchService.payload_of (session_state w) user_input)])%list) /\
    (OpenaiService.should_use_semantic_search user_input = false ->
       events w' = events w /\
       conversation_id (session_state w') = conversation_id (session_state w)).
Proof.
  intros run w' user. subst run w' user. unfold result, after.
  destruct (OpenaiService.process_user_input user_input self w) as [r w'] eqn:Hrun.
  cbn [fst snd]. revert Hrun.
  unfold OpenaiService.process_user_input. unfold bind at 1.
  rewrite add_message_run.
  set (w1 := with_session _ w).
  destruct (OpenaiService.should_use_semantic_search user_input) eqn:Hroute.
  - destruct (perform_search_cases self user_input w1)
      as (Hres & _ & Hev & Hm & _).
    unfold result, after in Hres, Hev, Hm. unfold bind, ret.
    destruct (SearchService.perform_search self user_input w1) as [[b | e] w2];
      cbn [fst snd] in *; [| destruct Hres; discriminate].
    intros [= <- <-].
    exists "Searching for relevant information...".
    split; [reflexivity |]. split; [left; rewrite Hm; reflexivity |].
    split; [| discriminate]. intros _. split; [rewrite Hm | rewrite Hev]; reflexivity.
  - unfold try_except, Session.get_messages_for_openai, bind, get_session, eval.
    destruct (Session.role_and_content (messages (session_state w1))) as [msgs | e].
    + destruct (openai_client (openai_api_key (config (session_state w1)))) as [[] | e].
      * destruct (generate_response_pure msgs (openai_model (session_state w1)) w1)
          as [[response | e] Hgen]; rewrite Hgen.
        -- rewrite add_message_run. intros [= <- <-].
           exists response. split; [reflexivity |].
           split; [right; cbn; rewrite <- app_assoc; reflexivity |].
           split; [discriminate | intros _; split; reflexivity].
        -- intros [= <- <-].
           exists ("Error: " ++ str_exn e). split; [reflexivity |].
           split; [left; reflexivity |].
           split; [discriminate | intros _; split; reflexivity].
      * intros [= <- <-].
        exists ("Error: " ++ str_exn e). split; [reflexivity |].
        split; [left; reflexivity |].
        split; [discriminate | intros _; split; reflexivity].
    + intros [= <- <-].
      exists ("Error: " ++ str_exn e). split; [reflexivity |].
      split; [left; reflexivity |].
      split; [discriminate | intros _; split; reflexivity].
Qed.

(** X6. [process_user_input] raises nothing, for no input, no state of the
    session and no answer of the services.  It stores the user's message
    first and at the end of the transcript; after it comes nothing, or the
    assistant's message, and then the text of that message is the reply.
    On the search route one request is posted and no assistant message is
    stored; on the other route nothing is posted and the conversation id
    is not touched. *)
Theorem process_user_input_outcome `{Runtime} `{Env} (user_input : string)
    (self : SearchService.SearchService) (w : World) :
  let run := OpenaiService.process_user_input user_input self in
  let w' := after run w in
  let user := plain_message (session_state w) "user" user_input in
  exists reply,
    result run w = Ok reply /\
    (messages (session_state w') = (messages (session_state w) ++ [user])%list \/
     messages (session_state w')
       = (messages (session_state w)
            ++ [user; plain_message (session_state w) "assistant" reply])%list) /\
    (OpenaiService.should_use_semantic_search user_input = true ->
       messages (session_state w') = (messages (session_state w) ++ [user])%list /\
       events w' = (events w ++
         [Requests_post (SearchService.api_endpoint self) (SearchService.headers self)
            (SearchService.payload_of (session_state w) user_input)])%list) /\
    (OpenaiService.should_use_semantic_search user_input = false ->
       events w' = events w /\
       conversation_id (session_state w') = conversation_id (session_state w)).
Proof. exact (process_user_input_cases user_input self w). Qed.

(** X7. When the completion endpoint replies, the reply is the content of
    the first choice with the blanks around it stripped; the endpoint was
    given the transcript with the user's new message at its end, and the
    model selected in the session; the transcript gains the user's message
    and then the assistant's, which holds the reply. *)
Theorem completion_reply_is_recorded `{Runtime} `{Env} (user_input : string)
    (self : SearchService.SearchService) (w : World) (msgs : list dict)
    (response : ChatCompletion) (content : string) (others : list (option string)) :
  OpenaiService.should_use_semantic_search user_input = false ->
  Session.role_and_content
    (messages (session_state w) ++ [plain_message (session_state w) "user" user_input])
    = Ok msgs ->
  openai_client (openai_api_key (config (session_state w))) = Ok tt ->
  chat_completions_create (openai_model (session_state w)) msgs = Ok response ->
  choices response = Some content :: others ->
  OpenaiService.process_user_input user_input self w
    = (Ok (str_strip content),
       with_session
         (set_messages
            (messages (session_state w)
               ++ [plain_message (session_state w) "user" user_input;
                   plain_message (session_state w) "assistant" (str_strip content)]))
         w).
Proof.
  intros Hroute Hmsgs Hclient Hcreate Hchoice.
  unfold OpenaiService.process_user_input, bind at 1.
  rewrite add_message_run, Hroute.
  unfold try_except, Session.get_messages_for_openai, bind, get_session, eval.
  cbn [session_state with_session messages set_messages config openai_model].
  unfold Session.new_message. fold (plain_message (session_state w) "user" user_input).
  rewrite Hmsgs, Hclient.
  unfold OpenaiService.generate_response, try_except, bind, eval, ret.
  rewrite Hcreate, Hchoice. rewrite add_message_run.
  cbn [with_session session_state messages set_messages].
  rewrite <- app_assoc. reflexivity.
Qed.

(** X7 on a new session: the user says hello and the endpoint replies
    with blanks around its text. *)
Lemma completion_reply_is_recorded_witness :
  let run := @OpenaiService.process_user_input Reference.runtime Reference.env
               "hello" Reference.a_service in
  result run Reference.fresh = Ok "Hello!" /\
  messages (session_state (after run Reference.fresh))
    = [ [("role", JStr "user"); ("content", JStr "hello"); ("timestamp", JInt 0)];
        [("role", JStr "assistant"); ("content", JStr "Hello!"); ("timestamp", JInt 0)] ].
Proof.
  pose proof (@completion_reply_is_recorded Reference.runtime Reference.env
                "hello" Reference.a_service Reference.fresh
                [[("role", JStr "user"); ("content", JStr "hello")]]
                {| choices := [Some " Hello! "] |} " Hello! " []
                eq_refl eq_refl eq_refl eq_refl eq_refl) as Hrun.
  unfold result, after. rewrite Hrun. split; reflexivity.
Defined.

(* ===================================================================== *)
(** ** Further properties: the chat page *)
(* ===================================================================== *)

Lemma entry_message_fields (s : SessionState) (role content : string)
    (search_query : option string) :
  py_getitem (JObj (entry_message s (role, content, search_query))) "role" = Ok (JStr role) /\
  py_getitem (JObj (entry_message s (role, content, search_query))) "content"
    = Ok (JStr content).
Proof.
  unfold entry_message, Session.new_message.
  destruct search_query as [q |]; [destruct (truthy (JStr q)) |]; split; reflexivity.
Qed.

Lemma display_each_entries `{Runtime} (s : SessionState)
    (entries : list (string * string * option string)) (w : World) :
  let run := ChatInterface.display_each (map (entry_message s) entries) in
  result run w = Ok tt /\
  events (after run w) = (events w ++ flat_map entry_shown entries)%list /\
  session_state (after run w) = session_state w /\
  clients (after run w) = clients w /\
  sockets (after run w) = sockets w.
Proof.
  revert w. induction entries as [| [[role content] search_query] rest IH]; intro w.
  - cbn. rewrite app_nil_r. repeat split.
  - destruct (entry_message_fields s role content search_query) as [Hrole Hcontent].
    unfold result, after in *. cbn [map ChatInterface.display_each flat_map].
    unfold bind, eval. rewrite Hrole, Hcontent.
    cbn [py_slice eq_str py_str entry_shown].
    destruct (role =? "user");
      [| destruct (role =? "assistant");
         [| destruct (role =? "system")]];
      unfold show, ret;
      match goal with
      | |- context [ChatInterface.display_each _ ?w1] =>
          destruct (IH w1) as (Hr & He & Hs & Hc & Hk);
          destruct (ChatInterface.display_each (map (entry_message s) rest) w1)
            as [[[] | e] w2]; cbn [fst snd] in *; try discriminate Hr;
          rewrite He, Hs, Hc, Hk; cbn [emit events session_state clients sockets app];
          rewrite <- ?app_assoc; repeat split
      end.
Qed.

(** X8. The page shows the transcript as it was written: one chat message
    per entry, in order, under the role of the entry; a system entry is
    shown as an assistant message that starts with "System: ", an entry of
    any other role is not shown, and an empty transcript gives the
    invitation to send a message.  Showing it raises nothing. *)
Theorem display_shows_transcript `{Runtime}
    (entries : list (string * string * option string)) (w : World) :
  messages (session_state w) = [] ->
  let run := append_all entries ;;; ChatInterface.display_chat_messages in
  result run w = Ok tt /\
  events (after run w)
    = (events w ++
         match entries with
         | [] => [St_info "Send a message to start the conversation!"]
         | _ => flat_map entry_shown entries
         end)%list.
Proof.
  intros Hempty run. subst run.
  destruct (append_all_cases entries w) as (Hr & Hm & _ & _ & _ & _ & _ & _ & _ & _ & _ & Hev).
  unfold result, after in *. unfold bind.
  destruct (append_all entries w) as [[[] | e] w1]; cbn [fst snd] in *; [| discriminate Hr].
  rewrite Hempty in Hm. cbn [app] in Hm.
  unfold ChatInterface.display_chat_messages, bind, get_session. rewrite Hm.
  destruct entries as [| entry rest].
  - cbn. rewrite Hev. split; reflexivity.
  - change (map (entry_message (session_state w)) (entry :: rest))
      with (entry_message (session_state w) entry
              :: map (entry_message (session_state w)) rest).
    cbv iota.
    change (entry_message (session_state w) entry
              :: map (entry_message (session_state w)) rest)
      with (map (entry_message (session_state w)) (entry :: rest)).
    destruct (display_each_entries (session_state w) (entry :: rest) w1) as (Hr' & He' & _).
    unfold result, after in Hr', He'. rewrite <- Hev. split; assumption.
Qed.

(** X8 on a transcript that holds a message of each kind. *)
Lemma display_shows_transcript_witness :
  events (after (append_all [ ("user", "hi", None); ("assistant", "hello", None);
                              ("system", "be kind", None); ("tool", "42", None) ]
                   ;;; @ChatInterface.display_chat_messages Reference.runtime)
                Reference.fresh)
    = [ St_chat_message "user" "hi";
        St_chat_message "assistant" "hello";
        St_chat_message "assistant" "System: be kind" ].
Proof.
  exact (proj2 (@display_shows_transcript Reference.runtime
                  [ ("user", "hi", None); ("assistant", "hello", None);
                    ("system", "be kind", None); ("tool", "42", None) ]
                  Reference.fresh eq_refl)).
Defined.

(* ===================================================================== *)
(** ** Further properties: the realtime channel *)
(* ===================================================================== *)

Lemma update_nth_last {A} (f : A -> A) (l : list A) (x : A) :
  WebsocketClient.update_nth (List.length l) f (l ++ [x]) = (l ++ [f x])%list.
Proof. induction l as [| y l IH]; simpl; [reflexivity | now rewrite IH]. Qed.

Lemma nth_error_last {A} (l : list A) (x : A) :
  nth_error (l ++ [x]) (List.length l) = Some x.
Proof. induction l as [| y l IH]; simpl; [reflexivity | exact IH]. Qed.



(** The Connect button on a session that is not connected, when the socket
    can be created. *)
Lemma connect_websocket_run `{Runtime} `{Env} (w : World) :
  websocket_connected (session_state w) = false ->
  websocket_app (aws_websocket_url (config (session_state w))) = Ok tt ->
  Sidebar.connect_websocket w
    = (Ok tt,
       {| session_state :=
            set_websocket_client (Some (List.length (clients w))) (session_state w);
          clients := clients w ++
            [{| websocket_url := aws_websocket_url (config (session_state w));
                ws := Some (List.length (sockets w));
                thread := Some (List.length (sockets w));
                is_connected := false |}];
          sockets := sockets w ++
            [{| socket_url := aws_websocket_url (config (session_state w));
                socket_owner := List.length (clients w);
                socket_closed := false |}];
          events := events w ++ [St_sidebar_success "WebSocket connection initiated"] |}).
Proof.
  intros Hc Happ.
  unfold Sidebar.connect_websocket, WebsocketClient.connect, bind, get_session,
    try_except, WebsocketClient.new_client, eval, WebsocketClient.client_url.
  rewrite Hc. cbn [clients session_state fst snd].
  rewrite (nth_error_last (clients w)). cbn [websocket_url]. rewrite Happ.
  unfold WebsocketClient.open_socket, WebsocketClient.update_client, update_session, show.
  cbn [clients sockets session_state events with_session emit].
  rewrite !update_nth_last. reflexivity.
Qed.

Lemma disconnect_websocket_disconnected `{Runtime} (w : World) :
  websocket_connected (session_state w) = false ->
  Sidebar.disconnect_websocket w
    = (Ok tt, emit (St_sidebar_warning "WebSocket not connected") w).
Proof.
  intro Hc. unfold Sidebar.disconnect_websocket, bind, get_session. rewrite Hc. reflexivity.
Qed.

(** X9. Connect, handshake, Disconnect.  The handshake has not reached the
    session, so the Disconnect button finds it not connected: it reports
    "WebSocket not connected" and closes nothing.  The socket that was
    opened stays open, its client object goes on saying it is connected,
    and the clients and sockets from before are as they were. *)
Theorem disconnect_after_handshake_closes_nothing `{Runtime} `{Env} (w : World) :
  websocket_connected (session_state w) = false ->
  websocket_app (aws_websocket_url (config (session_state w))) = Ok tt ->
  let url := aws_websocket_url (config (session_state w)) in
  let client := List.length (clients w) in
  let socket := List.length (sockets w) in
  let run := Sidebar.connect_websocket ;;; WebsocketClient._on_open client
               ;;; Sidebar.disconnect_websocket in
  let w' := after run w in
  result run w = Ok tt /\
  session_state w' = set_websocket_client (Some client) (session_state w) /\
  websocket_connected (session_state w') = false /\
  clients w' = (clients w ++
    [{| websocket_url := url; ws := Some socket; thread := Some socket;
        is_connected := true |}])%list /\
  sockets w' = (sockets w ++
    [{| socket_url := url; socket_owner := client; socket_closed := false |}])%list /\
  events w' = (events w ++
    [St_sidebar_success "WebSocket connection initiated";
     St_sidebar_warning "WebSocket not connected"])%list.
Proof.
  intros Hc Happ url client socket run w'. subst run w'.
  assert (Hrun :
    (Sidebar.connect_websocket ;;; WebsocketClient._on_open client
       ;;; Sidebar.disconnect_websocket) w
    = (Ok tt,
       {| session_state := set_websocket_client (Some client) (session_state w);
          clients := clients w ++
            [{| websocket_url := url; ws := Some socket; thread := Some socket;
                is_connected := true |}];
          sockets := sockets w ++
            [{| socket_url := url; socket_owner := client; socket_closed := false |}];
          events := (events w ++ [St_sidebar_success "WebSocket connection initiated"])
                      ++ [St_sidebar_warning "WebSocket not connected"] |})).
  { unfold bind. rewrite (connect_websocket_run w Hc Happ), on_open_run.
    cbn [session_state clients sockets events].
    rewrite (update_nth_last (WebsocketClient.set_is_connected true) (clients w)).
    rewrite disconnect_websocket_disconnected by exact Hc.
    reflexivity. }
  unfold result, after. rewrite Hrun. cbn [fst snd session_state clients sockets events].
  rewrite <- app_assoc. repeat split. exact Hc.
Qed.

(** X9 on a new session. *)
Lemma disconnect_after_handshake_closes_nothing_witness :
  let run := @Sidebar.connect_websocket Reference.runtime Reference.env
               ;;; WebsocketClient._on_open 0
               ;;; @Sidebar.disconnect_websocket Reference.runtime in
  sockets (after run Reference.fresh)
    = [{| socket_url := "wss://ws.example"; socket_owner := 0; socket_closed := false |}] /\
  events (after run Reference.fresh)
    = [ St_sidebar_success "WebSocket connection initiated";
        St_sidebar_warning "WebSocket not connected" ].
Proof.
  pose proof (@disconnect_after_handshake_closes_nothing Reference.runtime Reference.env
                Reference.fresh eq_refl eq_refl) as (_ & _ & _ & _ & Hsockets & Hevents).
  split; [exact Hsockets | exact Hevents].
Defined.








(** X12. When the socket cannot be created, the Connect button still ends
    without an exception: the error handler shows the error, no socket is
    opened, and yet the client object is stored in the session and the
    sidebar reports that the connection was initiated. *)
Theorem connect_failure_is_reported `{Runtime} `{Env} (w : World) (error : exn) :
  websocket_connected (session_state w) = false ->
  websocket_app (aws_websocket_url (config (session_state w))) = Raise error ->
  Sidebar.connect_websocket w
    = (Ok tt,
       {| session_state :=
            set_websocket_client (Some (List.length (clients w)))
              (set_websocket_connected false (session_state w));
          clients := clients w ++
            [{| websocket_url := aws_websocket_url (config (session_state w));
                ws := None; thread := None; is_connected := false |}];
          sockets := sockets w;
          events := events w ++
            [St_error ("WebSocket error: " ++ str_exn error);
             St_sidebar_success "WebSocket connection initiated"] |}).
Proof.
  intros Hc Happ.
  unfold Sidebar.connect_websocket, WebsocketClient.connect, bind, get_session,
    try_except, WebsocketClient.new_client, eval, WebsocketClient.client_url.
  rewrite Hc. cbn [clients session_state fst snd].
  rewrite (nth_error_last (clients w)). cbn [websocket_url]. rewrite Happ.
  unfold WebsocketClient.handle_websocket_error, bind, update_session, show.
  unfold emit, with_session. cbn [session_state clients sockets events str_error].
  rewrite <- app_assoc. reflexivity.
Qed.

(** X12 on a new session with no network. *)
Lemma connect_failure_is_reported_witness :
  let w' := after (@Sidebar.connect_websocket Reference.runtime Reference.env_down)
                  Reference.fresh in
  sockets w' = [] /\
  websocket_client (session_state w') = Some 0 /\
  events w' = [ St_error "WebSocket error: Network is unreachable";
                St_sidebar_success "WebSocket connection initiated" ].
Proof.
  pose proof (@connect_failure_is_reported Reference.runtime Reference.env_down
                Reference.fresh (ExternalError "OSError" "Network is unreachable")
                eq_refl eq_refl) as Hrun.
  cbv zeta. unfold after. rewrite Hrun. repeat split.
Defined.

(** X14. No inbound frame, JSON or not, with results or without, reaches
    the session or the page: handling it raises nothing and leaves the
    whole state as it was, the transcript and the stored search results
    included. *)
Theorem frames_reach_no_session `{Runtime} (frame : string) (w : World) :
  Sidebar.on_frame frame w = (Ok tt, w).
Proof. exact (on_frame_run frame w). Qed.

(* ===================================================================== *)
(** ** Further properties: the session over its whole life *)
(* ===================================================================== *)

(** X15. [initialize_session_state] only fills in what is missing.  Run a
    second time it changes nothing, a session that has the five keys is left
    exactly as it is, so that the transcript and the conversation id
    survive every rerun of the page, and whatever was there before is there
    after; from a session with none of the keys it gives the defaults. *)
Theorem initialize_keeps_session (k : Session.SessionKeys) (cfg : Config)
    (client : option nat) (timestamp : option json) :
  Session.initialize_session_state (Session.initialize_session_state k)
    = Session.initialize_session_state k /\
  (forall s, Session.session_of k cfg client timestamp = Some s ->
             Session.initialize_session_state k = k) /\
  (exists s,
     Session.session_of (Session.initialize_session_state k) cfg client timestamp = Some s /\
     (forall ms, Session.key_messages k = Some ms -> messages s = ms) /\
     (forall id, Session.key_conversation_id k = Some id -> conversation_id s = id) /\
     (forall b, Session.key_websocket_connected k = Some b -> websocket_connected s = b) /\
     (forall r, Session.key_search_results k = Some r -> search_results s = r) /\
     (forall m, Session.key_openai_model k = Some m -> openai_model s = m)) /\
  Session.session_of (Session.initialize_session_state Session.no_keys) cfg None None
    = Some (Session.initial_session cfg).
Proof.
  destruct k as [[ms |] [id |] [connected |] [results |] [model |]];
    (split; [reflexivity |]);
    (split; [intros s Hs; first [reflexivity | discriminate Hs] |]);
    (split; [| reflexivity]);
    (eexists; split; [reflexivity |]);
    repeat split; intros x Hx; first [now injection Hx | discriminate Hx].
Qed.

Lemma plain_message_written (s : SessionState) (role content : string) :
  role = "user" \/ role = "assistant" ->
  written_message (plain_message s role content).
Proof.
  intro Hrole. exists role, content. unfold plain_message.
  destruct Hrole as [-> | ->]; repeat split; auto.
Qed.

Lemma display_each_written `{Runtime} (ms : list dict) :
  Forall written_message ms ->
  forall w, exists w',
    ChatInterface.display_each ms w = (Ok tt, w') /\
    session_state w' = session_state w /\
    sockets w' = sockets w.
Proof.
  induction 1 as [| m rest Hm _ IH]; intro w.
  - exists w. repeat split.
  - destruct Hm as (role & content & Hr & Hc & Hrole).
    cbn [ChatInterface.display_each]. unfold bind, eval, py_getitem.
    rewrite Hr, Hc. cbn [py_slice].
    destruct Hrole as [-> | ->]; cbn [eq_str String.eqb Ascii.eqb Bool.eqb];
      unfold show;
      match goal with
      | |- context [ChatInterface.display_each rest ?w1] =>
          destruct (IH w1) as (w' & Hrun & Hs & Hso); rewrite Hrun;
          exists w'; split; [reflexivity | rewrite Hs, Hso; split; reflexivity]
      end.
Qed.

Lemma display_chat_messages_written `{Runtime} (w : World) :
  Forall written_message (messages (session_state w)) ->
  exists w',
    ChatInterface.display_chat_messages w = (Ok tt, w') /\
    session_state w' = session_state w /\
    sockets w' = sockets w.
Proof.
  intro Hw. unfold ChatInterface.display_chat_messages, bind, get_session.
  destruct (messages (session_state w)) as [| m rest] eqn:Hms.
  - eexists. repeat split.
  - apply display_each_written. exact Hw.
Qed.

Lemma role_and_content_written (ms : list dict) :
  Forall written_message ms -> exists out, Session.role_and_content ms = Ok out.
Proof.
  induction 1 as [| m rest Hm _ [out IH]].
  - now exists [].
  - destruct Hm as (role & content & Hr & Hc & _).
    cbn [Session.role_and_content]. unfold py_getitem. rewrite Hr, Hc, IH.
    eexists. reflexivity.
Qed.

(** [process_user_input] leaves the channel alone. *)
Lemma process_user_input_channel `{Runtime} `{Env} (user_input : string)
    (self : SearchService.SearchService) (w : World) :
  let w' := after (OpenaiService.process_user_input user_input self) w in
  websocket_connected (session_state w') = websocket_connected (session_state w) /\
  sockets w' = sockets w.
Proof.
  intro w'. subst w'. unfold after.
  destruct (OpenaiService.process_user_input user_input self w) as [r w'] eqn:Hrun.
  cbn [snd]. revert Hrun.
  unfold OpenaiService.process_user_input. unfold bind at 1.
  rewrite add_message_run.
  set (w1 := with_session _ w).
  destruct (OpenaiService.should_use_semantic_search user_input).
  - destruct (perform_search_cases self user_input w1)
      as (_ & _ & _ & _ & Hflag & _ & _ & _ & _ & _ & _ & Hso & _).
    unfold after in Hflag, Hso. unfold bind, ret.
    destruct (SearchService.perform_search self user_input w1) as [[b | e] w2];
      cbn [snd] in *; intros [= <- <-]; (split; [exact Hflag | exact Hso]).
  - unfold try_except, Session.get_messages_for_openai, bind, get_session, eval.
    destruct (Session.role_and_content (messages (session_state w1))) as [msgs | e];
      [| intros [= <- <-]; split; reflexivity].
    destruct (openai_client (openai_api_key (config (session_state w1)))) as [[] | e];
      [| intros [= <- <-]; split; reflexivity].
    destruct (generate_response_pure msgs (openai_model (session_state w1)) w1)
      as [[response | e] Hgen]; rewrite Hgen.
    + rewrite add_message_run. intros [= <- <-]. split; reflexivity.
    + intros [= <- <-]. split; reflexivity.
Qed.

(** Every action keeps the session not connected, the sockets open and the
    transcript one of written messages. *)
Lemma perform_keeps_steady `{Runtime} (a : action) (w : World) :
  websocket_connected (session_state w) = false ->
  none_closed w ->
  Forall written_message (messages (session_state w)) ->
  let w' := after (perform a) w in
  websocket_connected (session_state w') = false /\
  none_closed w' /\
  Forall written_message (messages (session_state w')).
Proof.
  intros Hc Hopen Hw w'. subst w'. unfold none_closed in *.
  destruct a as [E user_input | E | | | model | frame | client | client | client error];
    cbn [perform].
  - unfold after.
    destruct (ChatInterface.render_chat_interface user_input w) as [r0 w0] eqn:Hrun.
    cbn [snd]. revert Hrun.
    unfold ChatInterface.render_chat_interface, bind at 1, get_session.
    unfold bind at 1.
    destruct (display_chat_messages_written w Hw) as (w1 & Hshow & Hs1 & Hso1).
    rewrite Hshow.
    assert (Hw1 : Forall written_message (messages (session_state w1)))
      by now rewrite Hs1.
    assert (Hc1 : websocket_connected (session_state w1) = false) by now rewrite Hs1.
    assert (Hopen1 : Forall (fun s => socket_closed s = false) (sockets w1))
      by now rewrite Hso1.
    destruct user_input as [text |]; [destruct (truthy (JStr text)) |];
      try (intros [= <- <-]; repeat split; assumption).
    match goal with
    | |- context [@OpenaiService.process_user_input _ _ text ?svc] =>
        destruct (@process_user_input_cases _ E text svc w1) as (reply & Hr & Hm & _);
        destruct (@process_user_input_channel _ E text svc w1) as (Hflag & Hso);
        unfold result, after in Hr, Hm, Hflag, Hso; unfold bind, show;
        destruct (@OpenaiService.process_user_input _ E text svc w1) as [r w2]
    end.
    cbn [fst snd] in Hr, Hm, Hflag, Hso. subst r.
    unfold emit. intros [= <- <-]. cbn [session_state sockets].
    split; [now rewrite Hflag |]. split; [now rewrite Hso |].
    destruct Hm as [-> | ->]; apply Forall_app; split; try exact Hw1;
      repeat constructor; apply plain_message_written; auto.
  - unfold after, Sidebar.connect_websocket, WebsocketClient.connect, bind, get_session,
      try_except, WebsocketClient.new_client, eval, WebsocketClient.client_url.
    rewrite Hc. cbn [clients session_state fst snd].
    rewrite (nth_error_last (clients w)). cbn [websocket_url].
    destruct (websocket_app _) as [[] | e]; cbn.
    + split; [exact Hc |]. split; [| exact Hw].
      apply Forall_app. split; [exact Hopen | repeat constructor].
    + repeat split; assumption.
  - unfold after. rewrite disconnect_websocket_disconnected by exact Hc.
    cbn. repeat split; assumption.
  - cbn. repeat split; [exact Hc | exact Hopen | constructor].
  - cbn. repeat split; assumption.
  - unfold after. rewrite on_frame_run. cbn [snd]. repeat split; assumption.
  - cbn. repeat split; assumption.
  - cbn. repeat split; assumption.
  - cbn. repeat split; assumption.
Qed.

Lemma perform_each_keeps_steady `{Runtime} (actions : list action) (w : World) :
  websocket_connected (session_state w) = false ->
  none_closed w ->
  Forall written_message (messages (session_state w)) ->
  let w' := perform_each actions w in
  websocket_connected (session_state w') = false /\
  none_closed w' /\
  Forall written_message (messages (session_state w')).
Proof.
  revert w. induction actions as [| a rest IH]; intros w Hc Hopen Hw.
  - cbn. repeat split; assumption.
  - destruct (perform_keeps_steady a w Hc Hopen Hw) as (Hc1 & Hopen1 & Hw1).
    cbn [perform_each]. now apply IH.
Qed.

(** X16. Whatever the user does and the services answer, in whatever
    order: page runs with or without input, the three buttons, the choice
    of a model, and on the sockets' threads frames, handshakes, closes and
    transport errors.  In
    every state a new session gets to, the session reads not connected, so
    that the Disconnect button does nothing but report
    "WebSocket not connected", and the application has closed none of the
    sockets it opened; the transcript holds nothing but messages of the
    user and of the assistant with a text as content, and from such a
    transcript the page can be shown and the list for the completion
    endpoint be built. *)
Theorem sessions_stay_disconnected `{Runtime} (cfg : Config) (actions : list action) :
  let w' := perform_each actions (new_world cfg) in
  websocket_connected (session_state w') = false /\
  Sidebar.disconnect_websocket w'
    = (Ok tt, emit (St_sidebar_warning "WebSocket not connected") w') /\
  none_closed w' /\
  Forall written_message (messages (session_state w')) /\
  result ChatInterface.display_chat_messages w' = Ok tt /\
  exists msgs, result Session.get_messages_for_openai w' = Ok msgs.
Proof.
  destruct (perform_each_keeps_steady actions (new_world cfg)) as (Hc & Hopen & Hw');
    [reflexivity | constructor | constructor |].
  cbv zeta. set (w' := perform_each actions (new_world cfg)) in *.
  split; [exact Hc |].
  split; [now apply disconnect_websocket_disconnected |].
  split; [exact Hopen |]. split; [exact Hw' |]. split.
  - destruct (display_chat_messages_written w' Hw') as (w2 & Hshow & _).
    unfold result. now rewrite Hshow.
  - destruct (role_and_content_written _ Hw') as [out Hout].
    exists out. unfold result, Session.get_messages_for_openai, bind, get_session, eval.
    cbn [fst]. exact Hout.
Qed.

(* ===================================================================== *)
(** ** Further properties: how the operations go together *)
(* ===================================================================== *)

(** X17. Disconnecting a session that is not connected changes nothing,
    however often it is done: no socket is closed, no client object is
    touched, and each call only reports "WebSocket not connected". *)
Theorem disconnect_when_disconnected `{Runtime} (w : World) (n : nat) :
  websocket_connected (session_state w) = false ->
  let w' := after (times n Sidebar.disconnect_websocket) w in
  result (times n Sidebar.disconnect_websocket) w = Ok tt /\
  session_state w' = session_state w /\
  clients w' = clients w /\
  sockets w' = sockets w /\
  events w' = (events w ++ repeat (St_sidebar_warning "WebSocket not connected") n)%list.
Proof.
  intro Hc. revert w Hc. induction n as [| n IH]; intros w Hc.
  - cbn. rewrite app_nil_r. repeat split.
  - unfold result, after in *. cbn [times]. unfold bind.
    rewrite (disconnect_websocket_disconnected w Hc).
    destruct (IH (emit (St_sidebar_warning "WebSocket not connected") w) Hc)
      as (Hr & Hs & Hcl & Hso & He).
    repeat split; try assumption.
    rewrite He. cbn [emit events repeat]. now rewrite <- app_assoc.
Qed.

(** X17 on a new session: Disconnect twice. *)
Lemma disconnect_when_disconnected_witness :
  events (after (times 2 (@Sidebar.disconnect_websocket Reference.runtime)) Reference.fresh)
    = [ St_sidebar_warning "WebSocket not connected";
        St_sidebar_warning "WebSocket not connected" ].
Proof.
  pose proof (@disconnect_when_disconnected Reference.runtime Reference.fresh 2 eq_refl)
    as (_ & _ & _ & _ & He).
  exact He.
Defined.

(** X18. Clearing the conversation resets the correlation with the search
    backend: the dispatch that follows carries "new_conversation", whatever
    id was stored before, and starts from an empty transcript. *)
Theorem clear_starts_new_conversation `{Env} (self : SearchService.SearchService)
    (query : string) (w : World) :
  let run := Session.clear_conversation ;;; SearchService.perform_search self query in
  (result run w = Ok true \/ result run w = Ok false) /\
  sent_ids (events (after run w))
    = (sent_ids (events w) ++ [Some (JStr "new_conversation")])%list /\
  messages (session_state (after run w)) = [].
Proof.
  intro run. subst run. unfold result, after, bind.
  change (Session.clear_conversation w) with
    (Ok tt,
     with_session (set_search_results (JArr []))
       (with_session (set_conversation_id JNull) (with_session (set_messages []) w))).
  cbv iota beta.
  set (w0 := with_session (set_search_results (JArr [])) _).
  destruct (perform_search_cases self query w0) as (Hr & _ & Hev & Hm & _).
  unfold result, after in Hr, Hev, Hm.
  split; [exact Hr |]. split; [| now rewrite Hm].
  rewrite Hev, sent_ids_app. reflexivity.
Qed.

(** X19. The API key of the search service travels as the header
    [x-api-key] when it is a non-empty string, and not at all otherwise:
    without a key, or with the empty key, the request has no header. *)
Theorem api_key_header `{Env} (endpoint : string) (key : option string)
    (query : string) (w : World) :
  events (after (SearchService.perform_search (SearchService.init endpoint key) query) w)
    = (events w ++
        [Requests_post endpoint
           match key with
           | Some k => if k =? "" then [] else [("x-api-key", k)]
           | None => []
           end
           (SearchService.payload_of (session_state w) query)])%list.
Proof.
  destruct (perform_search_cases (SearchService.init endpoint key) query w)
    as (_ & _ & Hev & _).
  rewrite Hev. unfold SearchService.init.
  cbn [SearchService.api_endpoint SearchService.headers truthy].
  destruct key as [k |]; [destruct (k =? "") |]; reflexivity.
Qed.

Lemma display_each_quiet `{Runtime} (ms : list dict) (w : World) :
  let w' := after (ChatInterface.display_each ms) w in
  session_state w' = session_state w /\
  clients w' = clients w /\
  sockets w' = sockets w /\
  sent_ids (events w') = sent_ids (events w).
Proof.
  revert w. induction ms as [| m rest IH]; intro w; [repeat split |].
  unfold after in *. cbn [ChatInterface.display_each]. unfold bind, eval.
  destruct (py_getitem (JObj m) "role") as [role | e]; [| repeat split].
  destruct (py_getitem (JObj m) "content") as [content | e]; [| repeat split].
  destruct (py_slice content) as [[] | e]; [| repeat split].
  destruct (eq_str role "user");
    [| destruct (eq_str role "assistant");
       [| destruct (eq_str role "system")]];
    unfold show, ret;
    match goal with
    | |- context [ChatInterface.display_each rest ?w1] =>
        destruct (IH w1) as (Hs & Hc & Hk & He);
        destruct (ChatInterface.display_each rest w1) as [[[] | e] w2];
        cbn [fst snd] in *; rewrite Hs, Hc, Hk, He;
        cbn [emit session_state clients sockets events];
        rewrite ?sent_ids_app; cbn [sent_ids]; rewrite ?app_nil_r; repeat split
    end.
Qed.

(** X21. A run of the chat page with nothing in the input box, or with the
    empty text, only shows the transcript: the session, the client objects
    and the sockets are as before and no search request goes out. *)
Theorem idle_page_run `{Runtime} `{Env} (user_input : option string) (w : World) :
  user_input = None \/ user_input = Some "" ->
  let w' := after (ChatInterface.render_chat_interface user_input) w in
  session_state w' = session_state w /\
  clients w' = clients w /\
  sockets w' = sockets w /\
  sent_ids (events w') = sent_ids (events w).
Proof.
  intros Hidle w'. subst w'.
  assert (Hshow : let w1 := after ChatInterface.display_chat_messages w in
                  session_state w1 = session_state w /\ clients w1 = clients w /\
                  sockets w1 = sockets w /\ sent_ids (events w1) = sent_ids (events w)).
  { unfold after, ChatInterface.display_chat_messages, bind, get_session.
    destruct (messages (session_state w)) as [| m rest].
    - cbn. rewrite sent_ids_app. cbn. rewrite app_nil_r. repeat split.
    - apply (display_each_quiet (m :: rest) w). }
  assert (Heq : after (ChatInterface.render_chat_interface user_input) w
                = after ChatInterface.display_chat_messages w).
  { unfold after, ChatInterface.render_chat_interface, bind, get_session.
    destruct (ChatInterface.display_chat_messages w) as [[[] | e] w1];
      destruct Hidle as [-> | ->]; reflexivity. }
  rewrite Heq. exact Hshow.
Qed.

(** X21 on a session with one message on display. *)
Lemma idle_page_run_witness :
  let w := after (Session.add_message "user" "hi" None) Reference.fresh in
  session_state (after (@ChatInterface.render_chat_interface Reference.runtime
                          Reference.env_down (Some "")) w)
    = session_state w.
Proof.
  exact (proj1 (@idle_page_run Reference.runtime Reference.env_down (Some "")
                  (after (Session.add_message "user" "hi" None) Reference.fresh)
                  (or_intror eq_refl))).
Defined.
